(** * R2C2 coaching core: emotion detector and phase engine

    A shallow embedding of [server/r2c2/emotion_detector.py] and
    [server/r2c2/engine.py].

    Conventions of the embedding.
    - A Python [float] is an IEEE-754 binary64 number: Rocq's primitive
      [float], with the same rounding on every operation.
    - A [datetime] is the number of microseconds since the epoch (its
      resolution); a [timedelta] is a number of microseconds.  A test
      [d.total_seconds() >= k] on an integer [k] is the test
      [k * 1000000 <= d] on microseconds.
    - Every call of [datetime.now()] is an explicit argument of the
      operation that performs it, in the order of the calls.
    - A raised exception is the result [None]. *)

From Stdlib Require Import String Ascii ZArith List Bool Floats Lia.
Import ListNotations.

Set Warnings "-inexact-float".

(** Sequencing of operations that may raise. *)
Notation "x <- e ;; k" :=
  (match e with Some x => k | None => None end)
  (at level 61, e at next level, right associativity).

(* ================================================================== *)
(** ** Python built-ins used by the two modules *)
(* ================================================================== *)

Module Py.

Section Lists.
Context {A : Type}.

(** Normalisation of one bound of a slice [l[i:j]] for a list of
    length [n]: a negative bound counts from the end, and every bound
    is clipped to [0..n]. *)
Definition slice_bound (n i : Z) : Z :=
  if (i <? 0)%Z then Z.max (i + n) 0 else Z.min i n.

(** [l[start:stop]]; [None] is an omitted bound. *)
Definition slice (start stop : option Z) (l : list A) : list A :=
  let n := Z.of_nat (length l) in
  let lo := match start with Some i => slice_bound n i | None => 0%Z end in
  let hi := match stop with Some j => slice_bound n j | None => n end in
  firstn (Z.to_nat (hi - lo)) (skipn (Z.to_nat lo) l).

(** [max(d, key=f)] over the keys of [d] in iteration order: the first
    key whose value is not exceeded by a later one ([>] is strict). *)
Fixpoint max_from (f : A -> float) (best : A) (l : list A) : A :=
  match l with
  | [] => best
  | x :: l' => max_from f (if PrimFloat.ltb (f best) (f x) then x else best) l'
  end.

Definition max_key (f : A -> float) (l : list A) : option A :=
  match l with
  | [] => None
  | x :: l' => Some (max_from f x l')
  end.

(** [deque(maxlen=n).append(x)]: the oldest entry falls out when the
    deque is full. *)
Definition deque_append (maxlen : nat) (x : A) (q : list A) : list A :=
  let q' := q ++ [x] in
  if (maxlen <? length q')%nat then tl q' else q'.
End Lists.

(** [min(a, b)] and [max(a, b)] on floats: the first argument is kept
    unless the second is strictly smaller (larger). *)
Definition min2 (a b : float) : float := if PrimFloat.ltb b a then b else a.
Definition max2 (a b : float) : float := if PrimFloat.ltb a b then b else a.

(** [float(z)] for an integer: rounding to nearest even. *)
Definition float_of_int (z : Z) : float :=
  SF2Prim (binary_normalize prec emax z 0 false).

(** [int(x)] for a float: truncation toward zero; [ValueError] on a NaN
    and [OverflowError] on an infinity. *)
Definition int_of_float (x : float) : option Z :=
  match Prim2SF x with
  | S754_zero _ => Some 0%Z
  | S754_finite s m e =>
      let v := match e with
               | Z0 => Zpos m
               | Zpos p => Z.shiftl (Zpos m) (Zpos p)
               | Zneg p => Z.shiftr (Zpos m) (Zpos p)
               end in
      Some (if s then Z.opp v else v)
  | S754_infinity _ | S754_nan => None
  end.

(** [a / b] on two integers: [ZeroDivisionError] when [b = 0].  The
    quotient is the binary64 quotient of the two converted operands,
    which is Python's result whenever both are below [2^53] in absolute
    value. *)
Definition truediv (a b : Z) : option float :=
  if (b =? 0)%Z then None
  else Some (PrimFloat.div (float_of_int a) (float_of_int b)).

(** *** Strings: a character is a code point below 256 *)

(** [c.lower()] for one character: the ASCII capitals and the capitals
    of the Latin-1 supplement (all of 192..222 but the sign 215). *)
Definition lower_char (c : ascii) : ascii :=
  let n := nat_of_ascii c in
  if ((65 <=? n) && (n <=? 90)
      || (192 <=? n) && (n <=? 222) && negb (n =? 215))%nat
  then ascii_of_nat (n + 32) else c.

(** [s.lower()]. *)
Fixpoint lower (s : string) : string :=
  match s with
  | EmptyString => EmptyString
  | String c s' => String (lower_char c) (lower s')
  end.

(** [needle in hay]. *)
Fixpoint contains (needle hay : string) : bool :=
  if String.prefix needle hay then true
  else match hay with
       | EmptyString => false
       | String _ hay' => contains needle hay'
       end.

(** [c.isspace()]: the ASCII whitespace and separators, the next-line
    control 133 and the no-break space 160. *)
Definition isspace (c : ascii) : bool :=
  let n := nat_of_ascii c in
  ((9 <=? n) && (n <=? 13) || (28 <=? n) && (n <=? 32)
   || (n =? 133) || (n =? 160))%nat.

Fixpoint all_chars (p : ascii -> bool) (s : string) : bool :=
  match s with
  | EmptyString => true
  | String c s' => p c && all_chars p s'
  end.

End Py.

(* ================================================================== *)
(** ** [emotion_detector.py] *)
(* ================================================================== *)

Module Detector.

Open Scope float_scope.

Inductive EmotionType :=
| NEUTRAL | DEFENSIVE | FRUSTRATED | SAD | ANXIOUS | POSITIVE.

Definition EmotionType_eqb (a b : EmotionType) : bool :=
  match a, b with
  | NEUTRAL, NEUTRAL | DEFENSIVE, DEFENSIVE | FRUSTRATED, FRUSTRATED
  | SAD, SAD | ANXIOUS, ANXIOUS | POSITIVE, POSITIVE => true
  | _, _ => false
  end.

(** The smoothed feature dictionary handed to the classifier. *)
Record Features := {
  pitch : float;
  pitch_variance : float;
  energy : float;
  tempo : float
}.

Record EmotionState := {
  emotion : EmotionType;
  confidence : float;
  timestamp : Z;
  audio_features : Features
}.

(** Class constants. *)
Definition PITCH_VARIANCE_HIGH := 50.0.
Definition PITCH_VARIANCE_LOW := 15.0.
Definition ENERGY_HIGH := 0.7.
Definition ENERGY_LOW := 0.3.
Definition TEMPO_FAST := 1.3.
Definition TEMPO_SLOW := 0.7.
Definition MIN_CONFIDENCE := 0.3.
Definition HIGH_CONFIDENCE := 0.7.

(** *** [_classify_emotion] *)

(** The [emotion_scores] dictionary: keys in insertion order. *)
Definition Scores := list (EmotionType * float).

Definition initial_scores : Scores :=
  [ (NEUTRAL, 0.0); (DEFENSIVE, 0.0); (FRUSTRATED, 0.0);
    (SAD, 0.0); (ANXIOUS, 0.0); (POSITIVE, 0.0) ].

(** [d[k] += w] *)
Fixpoint iadd (k : EmotionType) (w : float) (d : Scores) : Scores :=
  match d with
  | [] => []
  | (k', v) :: d' =>
      if EmotionType_eqb k k' then (k', v + w) :: d'
      else (k', v) :: iadd k w d'
  end.

(** [d.get(k)] on a key of the dictionary. *)
Fixpoint get (d : Scores) (k : EmotionType) : float :=
  match d with
  | [] => 0.0
  | (k', v) :: d' => if EmotionType_eqb k k' then v else get d' k
  end.

(** One statement [if cond: emotion_scores[k] += w]. *)
Record Rule := {
  cond : Features -> bool;
  target : EmotionType;
  weight : float
}.

(** The sixteen statements of the classifier, in source order.  A
    comparison [x > c] is [c <? x]. *)
Definition rules : list Rule :=
  [ (* Defensive *)
    {| cond f := PITCH_VARIANCE_HIGH <? pitch_variance f;
       target := DEFENSIVE; weight := 0.4 |};
    {| cond f := TEMPO_FAST <? tempo f;
       target := DEFENSIVE; weight := 0.3 |};
    {| cond f := ENERGY_HIGH <? energy f;
       target := DEFENSIVE; weight := 0.3 |};
    (* Frustrated *)
    {| cond f := ENERGY_HIGH <? energy f;
       target := FRUSTRATED; weight := 0.4 |};
    {| cond f := PITCH_VARIANCE_HIGH * 0.7 <? pitch_variance f;
       target := FRUSTRATED; weight := 0.3 |};
    {| cond f := (TEMPO_FAST * 0.9 <? tempo f) || (tempo f <? TEMPO_SLOW * 1.1);
       target := FRUSTRATED; weight := 0.3 |};
    (* Sad *)
    {| cond f := energy f <? ENERGY_LOW;
       target := SAD; weight := 0.4 |};
    {| cond f := tempo f <? TEMPO_SLOW;
       target := SAD; weight := 0.3 |};
    {| cond f := pitch_variance f <? PITCH_VARIANCE_LOW;
       target := SAD; weight := 0.3 |};
    (* Anxious *)
    {| cond f := PITCH_VARIANCE_HIGH <? pitch_variance f;
       target := ANXIOUS; weight := 0.4 |};
    {| cond f := TEMPO_FAST <? tempo f;
       target := ANXIOUS; weight := 0.3 |};
    {| cond f := ENERGY_HIGH * 0.8 <? energy f;
       target := ANXIOUS; weight := 0.3 |};
    (* Positive *)
    {| cond f := (ENERGY_LOW <? energy f) && (energy f <? ENERGY_HIGH);
       target := POSITIVE; weight := 0.3 |};
    {| cond f := (TEMPO_SLOW * 1.2 <? tempo f) && (tempo f <? TEMPO_FAST * 0.9);
       target := POSITIVE; weight := 0.4 |};
    {| cond f := (PITCH_VARIANCE_LOW <? pitch_variance f)
                 && (pitch_variance f <? PITCH_VARIANCE_HIGH * 0.8);
       target := POSITIVE; weight := 0.3 |};
    (* Neutral *)
    {| cond f := (ENERGY_LOW * 1.2 <? energy f) && (energy f <? ENERGY_HIGH * 0.8)
                 && ((TEMPO_SLOW * 1.1 <? tempo f) && (tempo f <? TEMPO_FAST * 0.9))
                 && (pitch_variance f <? PITCH_VARIANCE_HIGH * 0.6);
       target := NEUTRAL; weight := 0.5 |} ].

(** Running the statements whose condition came out as [hits] says. *)
Fixpoint accumulate (rs : list Rule) (hits : list bool) (d : Scores) : Scores :=
  match rs, hits with
  | r :: rs', h :: hits' =>
      accumulate rs' hits' (if h then iadd (target r) (weight r) d else d)
  | _, _ => d
  end.

Definition emotion_scores (features : Features) : Scores :=
  accumulate rules (map (fun r => cond r features) rules) initial_scores.

(** The result for a given score dictionary: the part of
    [_classify_emotion] after the scoring. *)
Definition decide (scores : Scores) : EmotionType * float :=
  match Py.max_key (get scores) (map fst scores) with
  | None => (NEUTRAL, MIN_CONFIDENCE)
  | Some max_emotion =>
      let max_score := get scores max_emotion in
      if max_score <? MIN_CONFIDENCE then (NEUTRAL, MIN_CONFIDENCE)
      else (max_emotion, Py.min2 max_score 1.0)
  end.

Definition max_score_of (scores : Scores) : float :=
  match Py.max_key (get scores) (map fst scores) with
  | None => 0.0
  | Some max_emotion => get scores max_emotion
  end.

Definition _classify_emotion (features : Features) : EmotionType * float :=
  decide (emotion_scores features).


(** *** The numpy operations the detector calls

    An array is the list of its elements.  The operations are an
    interface: what is proved below holds for every implementation of
    them.  [Reference.numpy] further down is an executable one. *)
Class Numpy := {
  np_abs : list float -> list float;
  np_max : list float -> float;
  np_div : list float -> float -> list float;        (* [a / x] *)
  np_square : list float -> list float;              (* [a ** 2] *)
  np_correlate_full : list float -> list float -> list float;
  np_argmax : list float -> Z;
  np_mean : list float -> float;
  np_std : list float -> float;
  np_sqrt : float -> float;
  np_sign : list float -> list float;
  np_diff : list float -> list float;
  np_sum : list float -> float
}.

(** *** The detector object *)

Record EmotionDetector := {
  history_window : Z;
  emotion_history : list EmotionState;
  baseline_pitch : float;
  baseline_energy : float;
  baseline_tempo : float;
  pitch_buffer : list float;
  energy_buffer : list float;
  tempo_buffer : list float
}.

(** [timedelta(seconds=n)] *)
Definition seconds (n : Z) : Z := (n * 1000000)%Z.

(** [__init__] *)
Definition init (history_window_seconds : Z) : EmotionDetector :=
  {| history_window := seconds history_window_seconds;
     emotion_history := [];
     baseline_pitch := 150.0;
     baseline_energy := 0.5;
     baseline_tempo := 1.0;
     pitch_buffer := [];
     energy_buffer := [];
     tempo_buffer := [] |}.

(** The dictionary with the keys ['pitch'], ['energy'] and ['tempo']
    returned by [_extract_audio_features]. *)
Record AudioFeatures := {
  af_pitch : float;
  af_energy : float;
  af_tempo : float
}.

Section Extraction.
Context {np : Numpy}.

Definition len (a : list float) : Z := Z.of_nat (length a).

(** *** [_estimate_pitch] *)

(** Where the search for the autocorrelation peak ends: at one of the
    two early returns, or with a [peak_index]. *)
Inductive PitchSearch :=
| NoSearch
| Peak (peak_index : Z).

(** Lines 171-191: normalisation, autocorrelation, search window. *)
Definition find_peak (audio_data : list float) (sample_rate : Z)
  : option PitchSearch :=
  let audio_normalized :=
    np_div audio_data (np_max (np_abs audio_data) + 1e-8) in
  let correlation := np_correlate_full audio_normalized audio_normalized in
  let correlation := Py.slice (Some (len correlation / 2)%Z) None correlation in
  q400 <- Py.truediv sample_rate 400 ;;
  min_period <- Py.int_of_float q400 ;;
  q80 <- Py.truediv sample_rate 80 ;;
  max_period <- Py.int_of_float q80 ;;
  if (len correlation <=? max_period)%Z then Some NoSearch
  else
    let search_range :=
      Py.slice (Some min_period) (Some max_period) correlation in
    if (len search_range =? 0)%Z then Some NoSearch
    else Some (Peak (np_argmax search_range + min_period)%Z).

(** Lines 193-197: the period turned into a frequency. *)
Definition period_to_pitch (self : EmotionDetector) (sample_rate peak_index : Z)
  : float :=
  if (0 <? peak_index)%Z
  then Py.float_of_int sample_rate / Py.float_of_int peak_index
  else baseline_pitch self.

(** Lines 199-201: the sanity check. *)
Definition sanity_check (self : EmotionDetector) (pitch : float) : float :=
  if (pitch <? 80) || (400 <? pitch) then baseline_pitch self else pitch.

Definition _estimate_pitch (self : EmotionDetector)
  (audio_data : list float) (sample_rate : Z) : option float :=
  s <- find_peak audio_data sample_rate ;;
  Some match s with
       | NoSearch => baseline_pitch self
       | Peak peak_index =>
           sanity_check self (period_to_pitch self sample_rate peak_index)
       end.

(** *** [_calculate_energy] *)
Definition _calculate_energy (audio_data : list float) : float :=
  let rms := np_sqrt (np_mean (np_square audio_data)) in
  Py.min2 (rms / 0.1) 1.0.

(** *** [_estimate_tempo] *)
Definition _estimate_tempo (self : EmotionDetector)
  (audio_data : list float) (sample_rate : Z) : option float :=
  let zero_crossings := np_sum (np_abs (np_diff (np_sign audio_data))) / 2 in
  duration <- Py.truediv (len audio_data) sample_rate ;;
  if duration =? 0 then Some (baseline_tempo self)
  else
    let zcr := zero_crossings / duration in
    let baseline_zcr := 3000 in
    let tempo := zcr / baseline_zcr in
    Some (Py.max2 0.5 (Py.min2 tempo 2.0)).

(** *** [_extract_audio_features] *)
Definition _extract_audio_features (self : EmotionDetector)
  (audio_data : list float) (sample_rate : Z) : option AudioFeatures :=
  if (len audio_data =? 0)%Z then
    Some {| af_pitch := baseline_pitch self;
            af_energy := 0.0;
            af_tempo := baseline_tempo self |}
  else
    pitch <- _estimate_pitch self audio_data sample_rate ;;
    let energy := _calculate_energy audio_data in
    tempo <- _estimate_tempo self audio_data sample_rate ;;
    Some {| af_pitch := pitch; af_energy := energy; af_tempo := tempo |}.

(** *** [_cleanup_old_history] *)

(** The loop [while history and history[0].timestamp < cutoff:
    history.popleft()]. *)
Fixpoint popleft_while_old (cutoff_time : Z) (history : list EmotionState)
  : list EmotionState :=
  match history with
  | [] => []
  | s :: rest =>
      if (timestamp s <? cutoff_time)%Z then popleft_while_old cutoff_time rest
      else history
  end.

Definition _cleanup_old_history (self : EmotionDetector) (now : Z)
  : EmotionDetector :=
  let cutoff_time := (now - history_window self)%Z in
  {| history_window := history_window self;
     emotion_history := popleft_while_old cutoff_time (emotion_history self);
     baseline_pitch := baseline_pitch self;
     baseline_energy := baseline_energy self;
     baseline_tempo := baseline_tempo self;
     pitch_buffer := pitch_buffer self;
     energy_buffer := energy_buffer self;
     tempo_buffer := tempo_buffer self |}.

(** *** [analyze_audio]

    [now_stamp] is the clock reading that stamps the new state,
    [now_cleanup] the later one taken by [_cleanup_old_history]. *)
Definition analyze_audio (self : EmotionDetector)
  (audio_data : list float) (sample_rate : Z) (now_stamp now_cleanup : Z)
  : option (EmotionDetector * EmotionState) :=
  features <- _extract_audio_features self audio_data sample_rate ;;
  let pitch_buffer := Py.deque_append 10 (af_pitch features) (pitch_buffer self) in
  let energy_buffer := Py.deque_append 10 (af_energy features) (energy_buffer self) in
  let tempo_buffer := Py.deque_append 10 (af_tempo features) (tempo_buffer self) in
  let smoothed_features :=
    {| pitch := np_mean pitch_buffer;
       pitch_variance := np_std pitch_buffer;
       energy := np_mean energy_buffer;
       tempo := np_mean tempo_buffer |} in
  let '(emotion, confidence) := _classify_emotion smoothed_features in
  let emotion_state :=
    {| emotion := emotion;
       confidence := confidence;
       timestamp := now_stamp;
       audio_features := smoothed_features |} in
  let self :=
    {| history_window := history_window self;
       emotion_history := emotion_history self ++ [emotion_state];
       baseline_pitch := baseline_pitch self;
       baseline_energy := baseline_energy self;
       baseline_tempo := baseline_tempo self;
       pitch_buffer := pitch_buffer;
       energy_buffer := energy_buffer;
       tempo_buffer := tempo_buffer |} in
  Some (_cleanup_old_history self now_cleanup, emotion_state).

End Extraction.

(** *** [is_emotionally_ready_for_transition]

    [ready_count >= len(recent_sample) / 2] compares an integer with a
    half-integer: it is [len(recent_sample) <= 2 * ready_count]. *)
Definition ready_emotions : list EmotionType := [NEUTRAL; POSITIVE].

Definition member (e : EmotionType) (s : list EmotionType) : bool :=
  existsb (EmotionType_eqb e) s.

Definition recent_emotions (self : EmotionDetector) (now window_seconds : Z)
  : list EmotionState :=
  let cutoff_time := (now - seconds window_seconds)%Z in
  filter (fun state => (cutoff_time <=? timestamp state)%Z)
         (emotion_history self).

Definition is_emotionally_ready_for_transition
  (self : EmotionDetector) (now window_seconds : Z) : bool :=
  let recent_emotions := recent_emotions self now window_seconds in
  if (length recent_emotions <? 3)%nat then false
  else
    let recent_sample := Py.slice (Some (-3)%Z) None recent_emotions in
    let ready_count :=
      length (filter (fun state => member (emotion state) ready_emotions)
                     recent_sample) in
    let is_ready := (length recent_sample <=? 2 * ready_count)%nat in
    let has_sad :=
      existsb (fun state => EmotionType_eqb (emotion state) SAD) recent_sample in
    if has_sad then false else is_ready.

End Detector.

(* ================================================================== *)
(** ** [engine.py] *)
(* ================================================================== *)

Module Engine.

Open Scope string_scope.
Open Scope list_scope.
Open Scope Z_scope.

Inductive R2C2Phase :=
| RELATIONSHIP | REACTION | CONTENT | COACHING.

(** [phase.value] *)
Definition value (p : R2C2Phase) : string :=
  match p with
  | RELATIONSHIP => "relationship"
  | REACTION => "reaction"
  | CONTENT => "content"
  | COACHING => "coaching"
  end.

Definition R2C2Phase_eqb (a b : R2C2Phase) : bool :=
  match a, b with
  | RELATIONSHIP, RELATIONSHIP | REACTION, REACTION
  | CONTENT, CONTENT | COACHING, COACHING => true
  | _, _ => false
  end.

(** A [Dict[str, Any]] whose content the engine never inspects. *)
Definition Dict := list (string * string).

Record FeedbackData := {
  feedback_id : string;
  user_id : string;
  collection_date : Z;
  themes : list Dict;
  raw_comments : list Dict
}.

(** The engine's own [EmotionState]: the emotion is a string. *)
Record EmotionState := {
  emotion : string;
  confidence : float;
  timestamp : Z;
  audio_features : list (string * float)
}.

(** A goal dictionary: keys ['type'], ['description'], ['timestamp']. *)
Record Goal := {
  goal_type : string;
  description : string;
  goal_timestamp : Z
}.

Record DevelopmentPlan := {
  goals : list Goal;
  created_at : option Z
}.

(** An entry of [phase_history]: keys ['phase'], ['duration'] (here in
    microseconds), ['ended_at']. *)
Record PhaseRecord := {
  phase : string;
  duration : Z;
  ended_at : Z
}.

Record R2C2State := {
  current_phase : R2C2Phase;
  phase_start_time : Z;
  feedback_data : FeedbackData;
  user_reactions : list string;
  content_themes : list string;
  development_plan : option DevelopmentPlan;
  emotional_states : list EmotionState;
  phase_history : list PhaseRecord
}.

(** Assignments to one attribute of the state. *)
Definition set_phase (p : R2C2Phase) (start : Z) (s : R2C2State) :=
  {| current_phase := p; phase_start_time := start;
     feedback_data := feedback_data s; user_reactions := user_reactions s;
     content_themes := content_themes s;
     development_plan := development_plan s;
     emotional_states := emotional_states s;
     phase_history := phase_history s |}.

Definition set_user_reactions (l : list string) (s : R2C2State) :=
  {| current_phase := current_phase s; phase_start_time := phase_start_time s;
     feedback_data := feedback_data s; user_reactions := l;
     content_themes := content_themes s;
     development_plan := development_plan s;
     emotional_states := emotional_states s;
     phase_history := phase_history s |}.

Definition set_content_themes (l : list string) (s : R2C2State) :=
  {| current_phase := current_phase s; phase_start_time := phase_start_time s;
     feedback_data := feedback_data s; user_reactions := user_reactions s;
     content_themes := l;
     development_plan := development_plan s;
     emotional_states := emotional_states s;
     phase_history := phase_history s |}.

Definition set_development_plan (p : option DevelopmentPlan) (s : R2C2State) :=
  {| current_phase := current_phase s; phase_start_time := phase_start_time s;
     feedback_data := feedback_data s; user_reactions := user_reactions s;
     content_themes := content_themes s;
     development_plan := p;
     emotional_states := emotional_states s;
     phase_history := phase_history s |}.

Definition set_emotional_states (l : list EmotionState) (s : R2C2State) :=
  {| current_phase := current_phase s; phase_start_time := phase_start_time s;
     feedback_data := feedback_data s; user_reactions := user_reactions s;
     content_themes := content_themes s;
     development_plan := development_plan s;
     emotional_states := l;
     phase_history := phase_history s |}.

Definition set_phase_history (l : list PhaseRecord) (s : R2C2State) :=
  {| current_phase := current_phase s; phase_start_time := phase_start_time s;
     feedback_data := feedback_data s; user_reactions := user_reactions s;
     content_themes := content_themes s;
     development_plan := development_plan s;
     emotional_states := emotional_states s;
     phase_history := l |}.

(** Class constants (seconds). *)
Definition RELATIONSHIP_MIN_DURATION := 120.
Definition REACTION_MIN_DURATION := 180.
Definition CONTENT_MIN_DURATION := 240.
Definition READY_EMOTIONS : list string := ["neutral"; "positive"].

(** [x in l] on strings. *)
Definition mem (x : string) (l : list string) : bool :=
  existsb (String.eqb x) l.

(** The state built by [__init__]. *)
Definition initial_state (feedback : FeedbackData) (now : Z) : R2C2State :=
  {| current_phase := RELATIONSHIP; phase_start_time := now;
     feedback_data := feedback; user_reactions := [];
     content_themes := []; development_plan := None;
     emotional_states := []; phase_history := [] |}.

(** [get_time_in_phase], in microseconds. *)
Definition get_time_in_phase (s : R2C2State) (now : Z) : Z :=
  now - phase_start_time s.

(** [time_in_phase >= k] for a number [k] of seconds. *)
Definition at_least (time_in_phase k : Z) : bool :=
  k * 1000000 <=? time_in_phase.

Definition get_recent_emotions (s : R2C2State) (now window_seconds : Z)
  : list EmotionState :=
  let cutoff_time := now - window_seconds * 1000000 in
  filter (fun e => cutoff_time <=? timestamp e) (emotional_states s).

(** [ready_count >= len(recent_sample) / 2] is
    [len(recent_sample) <= 2 * ready_count]. *)
Definition is_emotionally_ready_for_transition (s : R2C2State) (now : Z)
  : bool :=
  let recent_emotions := get_recent_emotions s now 60 in
  match recent_emotions with
  | [] => false
  | _ =>
      let recent_sample :=
        if (3 <=? length recent_emotions)%nat
        then Py.slice (Some (-3)) None recent_emotions
        else recent_emotions in
      let ready_count :=
        length (filter (fun e => mem (emotion e) READY_EMOTIONS) recent_sample) in
      (length recent_sample <=? 2 * ready_count)%nat
  end.

(** [should_transition]: [now_phase] is the reading taken by
    [get_time_in_phase], [now_emotions] the one taken by
    [get_recent_emotions] when the readiness is evaluated. *)
Definition should_transition (s : R2C2State)
  (emotion_state : option EmotionState) (now_phase now_emotions : Z)
  : R2C2State * bool :=
  let time_in_phase := get_time_in_phase s now_phase in
  let current_phase := current_phase s in
  let s := match emotion_state with
           | Some e => set_emotional_states (emotional_states s ++ [e]) s
           | None => s
           end in
  let ready := is_emotionally_ready_for_transition s now_emotions in
  let result :=
    match current_phase with
    | RELATIONSHIP =>
        if at_least time_in_phase RELATIONSHIP_MIN_DURATION then true
        else if at_least time_in_phase 90 && ready then true
        else false
    | REACTION =>
        if at_least time_in_phase REACTION_MIN_DURATION && ready then true
        else if at_least time_in_phase 600 then true
        else false
    | CONTENT =>
        if at_least time_in_phase CONTENT_MIN_DURATION
           && (2 <=? length (content_themes s))%nat then true
        else if at_least time_in_phase 720 then true
        else false
    | COACHING => false
    end in
  (s, result).

(** [l.index(x)]: [ValueError] when [x] is absent. *)
Fixpoint index (x : R2C2Phase) (l : list R2C2Phase) : option nat :=
  match l with
  | [] => None
  | y :: l' => if R2C2Phase_eqb x y then Some O
               else match index x l' with
                    | Some i => Some (S i)
                    | None => None
                    end
  end.

Definition phase_order : list R2C2Phase :=
  [RELATIONSHIP; REACTION; CONTENT; COACHING].

(** [transition_to_next_phase]: the three clock readings are those of
    [get_time_in_phase], of ['ended_at'] and of the new
    [phase_start_time]. *)
Definition transition_to_next_phase (s : R2C2State)
  (now_duration now_ended now_start : Z) : option (R2C2State * R2C2Phase) :=
  let old_phase := current_phase s in
  let time_in_phase := get_time_in_phase s now_duration in
  let s := set_phase_history
             (phase_history s ++
                [ {| phase := value old_phase;
                     duration := time_in_phase;
                     ended_at := now_ended |} ]) s in
  current_index <- index old_phase phase_order ;;
  new_phase <-
    (if (current_index <? length phase_order - 1)%nat
     then nth_error phase_order (current_index + 1)
     else Some old_phase) ;;
  Some (set_phase new_phase now_start s, new_phase).

(** [_extract_content_themes] *)
Definition keywords : list string :=
  [ "communication"; "leadership"; "collaboration"; "feedback";
    "delegation"; "listening"; "empathy"; "decision-making";
    "accountability"; "follow-through"; "organization"; "planning" ].

Definition _extract_content_themes (s : R2C2State) (response : string)
  : R2C2State :=
  let response_lower := Py.lower response in
  set_content_themes
    (fold_left
       (fun themes keyword =>
          if Py.contains keyword response_lower && negb (mem keyword themes)
          then themes ++ [keyword] else themes)
       keywords (content_themes s))
    s.

(** [_extract_development_items]: [now_created] is read only when the
    plan is created, [now_goal] only when a goal is appended. *)
Definition start_words : list string := ["start"; "begin"; "initiate"].
Definition stop_words : list string := ["stop"; "quit"; "cease"; "avoid"].
Definition continue_words : list string := ["continue"; "keep"; "maintain"].

(** [any(word in text for word in words)] *)
Definition any_in (words : list string) (text : string) : bool :=
  existsb (fun word => Py.contains word text) words.

Definition detect_goal_type (response_lower : string) : option string :=
  if any_in start_words response_lower then Some "start"
  else if any_in stop_words response_lower then Some "stop"
  else if any_in continue_words response_lower then Some "continue"
  else None.

Definition _extract_development_items (s : R2C2State) (response : string)
  (now_created now_goal : Z) : R2C2State :=
  let plan := match development_plan s with
              | None => {| goals := []; created_at := Some now_created |}
              | Some plan => plan
              end in
  let response_lower := Py.lower response in
  let goal_type := detect_goal_type response_lower in
  let plan :=
    match goal_type with
    | Some type =>
        if (20 <? String.length response)%nat then
          let goal := {| goal_type := type;
                         description := response;
                         goal_timestamp := now_goal |} in
          {| goals := goals plan ++ [goal]; created_at := created_at plan |}
        else plan
    | None => plan
    end in
  set_development_plan (Some plan) s.

(** [record_user_response] *)
Definition record_user_response (s : R2C2State) (response : string)
  (emotion : option EmotionState) (now_created now_goal : Z) : R2C2State :=
  let s := match emotion with
           | Some e => set_emotional_states (emotional_states s ++ [e]) s
           | None => s
           end in
  match current_phase s with
  | REACTION => set_user_reactions (user_reactions s ++ [response]) s
  | CONTENT => _extract_content_themes s response
  | COACHING => _extract_development_items s response now_created now_goal
  | RELATIONSHIP => s
  end.

(** The goals of the plan, none when there is no plan. *)
Definition plan_goals (s : R2C2State) : list Goal :=
  match development_plan s with
  | Some plan => goals plan
  | None => []
  end.

(** *** The engine object and its state object

    [self.state] is a reference to a state object; [get_state] hands
    out that reference and [restore_state] stores one.  The store maps a
    reference (an index) to the object it denotes. *)
Definition ref := nat.
Definition Store := list R2C2State.

Record R2C2Engine := {
  state : ref;
  _session_start_time : Z
}.

Definition deref (h : Store) (r : ref) : option R2C2State := nth_error h r.

(** Allocation of a fresh object. *)
Definition alloc (h : Store) (s : R2C2State) : Store * ref :=
  (h ++ [s], length h).

(** Mutation of the object behind a reference. *)
Fixpoint assign (h : Store) (r : ref) (s : R2C2State) : Store :=
  match h, r with
  | [], _ => []
  | _ :: h', O => s :: h'
  | x :: h', S r' => x :: assign h' r' s
  end.

(** [R2C2Engine(feedback_data)] *)
Definition new (h : Store) (feedback : FeedbackData) (now_state now_session : Z)
  : Store * R2C2Engine :=
  let '(h, r) := alloc h (initial_state feedback now_state) in
  (h, {| state := r; _session_start_time := now_session |}).

Definition get_state (self : R2C2Engine) : ref := state self.

Definition restore_state (self : R2C2Engine) (r : ref) : R2C2Engine :=
  {| state := r; _session_start_time := _session_start_time self |}.

(** A method that mutates [self.state] in place and returns a value. *)
Definition invoke {A : Type} (m : R2C2State -> option (R2C2State * A))
  (h : Store) (self : R2C2Engine) : option (Store * A) :=
  s <- deref h (state self) ;;
  r <- m s ;;
  Some (assign h (state self) (fst r), snd r).

End Engine.
(* ================================================================== *)
(** ** The classifier: scenario and confidence bounds *)
(* ================================================================== *)

Module ClassifierFacts.
Import Detector.
Open Scope float_scope.

Definition all_emotions : list EmotionType :=
  [NEUTRAL; DEFENSIVE; FRUSTRATED; SAD; ANXIOUS; POSITIVE].

(** A boolean test over every outcome of [n] conditions. *)
Fixpoint for_all_hits (n : nat) (p : list bool -> bool) : bool :=
  match n with
  | O => p []
  | S n' => for_all_hits n' (fun l => p (true :: l))
            && for_all_hits n' (fun l => p (false :: l))
  end.

Lemma for_all_hits_sound (n : nat) :
  forall p, for_all_hits n p = true ->
  forall l, length l = n -> p l = true.
Proof.
  induction n as [|n IH]; intros p Hp l Hl.
  - destruct l; [exact Hp | discriminate].
  - destruct l as [|b l]; [discriminate|].
    simpl in Hp. apply andb_true_iff in Hp as [Ht Hf].
    injection Hl as Hl.
    destruct b.
    + exact (IH (fun l => p (true :: l)) Ht l Hl).
    + exact (IH (fun l => p (false :: l)) Hf l Hl).
Qed.

(** What is checked of one score dictionary: the confidence lies in
    [0, 1], and no emotion scores above the selected maximum. *)
Definition bounded (scores : Scores) : bool :=
  let c := snd (decide scores) in
  (0.0 <=? c) && (c <=? 1.0)
  && forallb (fun k => get scores k <=? max_score_of scores) all_emotions.

Lemma bounded_every_outcome :
  for_all_hits (length rules)
    (fun hits => bounded (accumulate rules hits initial_scores)) = true.
Proof. vm_compute. reflexivity. Qed.

Lemma bounded_emotion_scores (f : Features) : bounded (emotion_scores f) = true.
Proof.
  unfold emotion_scores.
  apply (for_all_hits_sound (length rules)
           (fun hits => bounded (accumulate rules hits initial_scores))
           bounded_every_outcome).
  apply length_map.
Qed.

(** The statements only change values: the keys stay the six emotions
    in their order of insertion. *)
Lemma iadd_keys (k : EmotionType) (w : float) (d : Scores) :
  map fst (iadd k w d) = map fst d.
Proof.
  induction d as [|[k' v] d IH]; [reflexivity|].
  simpl. destruct (EmotionType_eqb k k'); simpl; [|rewrite IH]; reflexivity.
Qed.

Lemma accumulate_keys (rs : list Rule) :
  forall hits d, map fst (accumulate rs hits d) = map fst d.
Proof.
  induction rs as [|r rs IH]; intros [|h hits] d; try reflexivity.
  simpl. rewrite IH. destruct h; [apply iadd_keys | reflexivity].
Qed.

Lemma emotion_scores_keys (f : Features) :
  map fst (emotion_scores f) = all_emotions.
Proof. unfold emotion_scores. rewrite accumulate_keys. reflexivity. Qed.

(** The selected maximum is the score of one of the emotions. *)
Lemma max_score_attained (f : Features) :
  exists k, max_score_of (emotion_scores f) = get (emotion_scores f) k.
Proof.
  unfold max_score_of. rewrite emotion_scores_keys.
  simpl. eexists. reflexivity.
Qed.

Lemma decide_cases (scores : Scores) :
  ((max_score_of scores <? MIN_CONFIDENCE) = true ->
     decide scores = (NEUTRAL, MIN_CONFIDENCE))
  /\ ((max_score_of scores <? MIN_CONFIDENCE) = false ->
     snd (decide scores) = Py.min2 (max_score_of scores) 1.0).
Proof.
  unfold decide, max_score_of.
  destruct (Py.max_key (get scores) (map fst scores)) as [e|].
  - split; intros H; rewrite H; reflexivity.
  - split; intros H; [reflexivity|].
    vm_compute in H. discriminate H.
Qed.

(** C5.  The smoothed features with pitch variance 60, energy 0.8 and
    tempo 1.4 are classified Defensive with confidence exactly 1.0.
    Defensive, Frustrated and Anxious all reach the score 1.0 on this
    input, and the dictionary is iterated in the order Neutral,
    Defensive, Frustrated, Sad, Anxious, Positive, so the first of the
    three wins. *)
Theorem classify_defensive_scenario :
  forall p : float,
    let f := {| pitch := p; pitch_variance := 60.0;
                energy := 0.8; tempo := 1.4 |} in
    _classify_emotion f = (DEFENSIVE, 1.0)
    /\ map fst (emotion_scores f) = all_emotions
    /\ map snd (emotion_scores f) = [0.0; 1.0; 1.0; 0.0; 1.0; 0.0].
Proof.
  intros p f. subst f.
  repeat split; vm_compute; reflexivity.
Qed.

(** C6.  For every smoothed feature vector the returned confidence lies
    in [0.0, 1.0]; the selected maximum is the score of one emotion and
    at least the score of every emotion; when it is below 0.3 the
    result is exactly (Neutral, 0.3), and otherwise the confidence is
    min(maximum, 1.0). *)
Theorem classify_confidence :
  forall f : Features,
    let scores := emotion_scores f in
    let max_score := max_score_of scores in
    let c := snd (_classify_emotion f) in
    (0.0 <=? c) = true /\ (c <=? 1.0) = true
    /\ (exists k, max_score = get scores k)
    /\ (forall k, (get scores k <=? max_score) = true)
    /\ ((max_score <? 0.3) = true -> _classify_emotion f = (NEUTRAL, 0.3))
    /\ ((max_score <? 0.3) = false -> c = Py.min2 max_score 1.0).
Proof.
  intros f scores max_score c.
  pose proof (bounded_emotion_scores f) as Hb.
  unfold bounded in Hb. fold scores in Hb.
  apply andb_true_iff in Hb as [Hb Hmax].
  apply andb_true_iff in Hb as [Hlo Hhi].
  rewrite forallb_forall in Hmax.
  destruct (decide_cases scores) as [Hlow Hhigh].
  repeat split.
  - exact Hlo.
  - exact Hhi.
  - apply max_score_attained.
  - intros k. apply Hmax. destruct k; simpl; tauto.
  - exact Hlow.
  - exact Hhigh.
Qed.

(** Features on which no statement fires: every score stays 0.0. *)
Definition faint : Features :=
  {| pitch := 150.0; pitch_variance := 15.0; energy := 0.3; tempo := 0.8 |}.

Lemma classify_confidence_witness :
  _classify_emotion faint = (NEUTRAL, 0.3).
Proof.
  apply (proj1 (proj2 (proj2 (proj2 (proj2 (classify_confidence faint)))))).
  vm_compute. reflexivity.
Defined.

End ClassifierFacts.

(* ================================================================== *)
(** ** An executable numpy: sequential binary64 arithmetic *)
(* ================================================================== *)

Module Reference.
Open Scope float_scope.

Definition sum (a : list float) : float := fold_left PrimFloat.add a 0.0.

Definition mean (a : list float) : float :=
  sum a / Py.float_of_int (Z.of_nat (length a)).

Definition maximum (a : list float) : float :=
  match a with
  | [] => nan
  | x :: a' => fold_left Py.max2 a' x
  end.

(** The index of the first occurrence of the maximum. *)
Fixpoint argmax_from (best : float) (best_i i : Z) (a : list float) : Z :=
  match a with
  | [] => best_i
  | x :: a' =>
      if best <? x then argmax_from x i (i + 1)%Z a'
      else argmax_from best best_i (i + 1)%Z a'
  end.

Definition argmax (a : list float) : Z :=
  match a with
  | [] => 0%Z
  | x :: a' => argmax_from x 0%Z 1%Z a'
  end.

(** [a[i + k] * v[i]] summed over the indices where both exist. *)
Definition lag_product (a v : list float) (k : Z) : float :=
  sum (map (fun i =>
              if (0 <=? Z.of_nat i + k)%Z
              then nth (Z.to_nat (Z.of_nat i + k)) a 0.0 * nth i v 0.0
              else 0.0)
           (seq 0 (length v))).

Definition correlate_full (a v : list float) : list float :=
  let n := Z.of_nat (length v) in
  map (fun j => lag_product a v (Z.of_nat j - (n - 1))%Z)
      (seq 0 (length a + length v - 1)).

Definition sign (x : float) : float :=
  if x <? 0.0 then -1.0 else if 0.0 <? x then 1.0 else x.

Fixpoint diff (a : list float) : list float :=
  match a with
  | x :: (y :: _) as a' => (y - x) :: diff a'
  | _ => []
  end.

Definition std (a : list float) : float :=
  let m := mean a in
  PrimFloat.sqrt (mean (map (fun x => (x - m) * (x - m)) a)).

#[export] Instance numpy : Detector.Numpy := {
  np_abs := map PrimFloat.abs;
  np_max := maximum;
  np_div a x := map (fun y => y / x) a;
  np_square := map (fun y => y * y);
  np_correlate_full := correlate_full;
  np_argmax := argmax;
  np_mean := mean;
  np_std := std;
  np_sqrt := PrimFloat.sqrt;
  np_sign := map sign;
  np_diff := diff;
  np_sum := sum
}.

End Reference.

(* ================================================================== *)
(** ** The emotion detector: readiness *)
(* ================================================================== *)

Module ReadinessFacts.
Import Detector.
Open Scope Z_scope.

Section Slices.
Context {A : Type}.

(** [l[-3:]] on a list that ends with three entries is those entries. *)
Lemma slice_last_three (older : list A) (a b c : A) :
  Py.slice (Some (-3)) None (older ++ [a; b; c]) = [a; b; c].
Proof.
  unfold Py.slice, Py.slice_bound.
  rewrite length_app. cbn [length].
  replace (-3 <? 0) with true by reflexivity.
  rewrite Z.max_l by lia.
  replace (Z.to_nat (-3 + Z.of_nat (length older + 3))) with (length older)
    by lia.
  replace (Z.to_nat (Z.of_nat (length older + 3)
                     - (-3 + Z.of_nat (length older + 3)))) with 3%nat by lia.
  rewrite skipn_app, skipn_all, Nat.sub_diag. reflexivity.
Qed.

End Slices.

Definition is_sad (state : EmotionState) : bool :=
  EmotionType_eqb (emotion state) SAD.

Lemma is_sad_iff (state : EmotionState) :
  is_sad state = true <-> emotion state = SAD.
Proof.
  unfold is_sad. destruct (emotion state); simpl; split; congruence.
Qed.

(** The readiness test for any window. *)
Lemma not_ready_below_three (self : EmotionDetector) (now window : Z) :
  (length (recent_emotions self now window) < 3)%nat ->
  is_emotionally_ready_for_transition self now window = false.
Proof.
  intros H. unfold is_emotionally_ready_for_transition.
  apply Nat.ltb_lt in H. rewrite H. reflexivity.
Qed.

Lemma not_ready_when_sad (self : EmotionDetector) (now window : Z)
  (older : list EmotionState) (a b c : EmotionState) :
  recent_emotions self now window = older ++ [a; b; c] ->
  emotion a = SAD \/ emotion b = SAD \/ emotion c = SAD ->
  is_emotionally_ready_for_transition self now window = false.
Proof.
  intros Hrecent Hsad. unfold is_emotionally_ready_for_transition.
  rewrite Hrecent, slice_last_three.
  destruct (length (older ++ [a; b; c]) <? 3)%nat; [reflexivity|].
  assert (Hex : existsb (fun state => EmotionType_eqb (emotion state) SAD)
                        [a; b; c] = true).
  { cbn [existsb].
    destruct Hsad as [H | [H | H]]; apply is_sad_iff in H;
      unfold is_sad in H; rewrite H;
      rewrite ?orb_true_r; reflexivity. }
  rewrite Hex. reflexivity.
Qed.

(** The detector's query does what C2 says.  Over a 60-second window it
    answers false when fewer than 3 entries of the history lie within
    the window, and answers false whenever one of the three most recent
    entries within the window is Sad, whatever the other two are.  The
    engine's method of the same name is compared with it in
    [ReadinessDivergence]. *)
Theorem readiness_three_entries_no_sad :
  forall (self : EmotionDetector) (now : Z),
    let recent := recent_emotions self now 60 in
    let ready := is_emotionally_ready_for_transition self now 60 in
    ((length recent < 3)%nat -> ready = false)
    /\ (forall older a b c,
          recent = older ++ [a; b; c] ->
          emotion a = SAD \/ emotion b = SAD \/ emotion c = SAD ->
          ready = false).
Proof.
  intros self now recent ready. subst recent ready. split.
  - apply not_ready_below_three.
  - intros older a b c. apply not_ready_when_sad.
Qed.

(** Two ready entries followed by a sad one, all within the last
    minute before second 100. *)
Definition heard (e : EmotionType) (second : Z) : EmotionState :=
  {| emotion := e; confidence := 0.8%float; timestamp := seconds second;
     audio_features :=
       {| pitch := 150%float; pitch_variance := 0%float;
          energy := 0.5%float; tempo := 1%float |} |}.

Definition two_ready_one_sad : EmotionDetector :=
  {| history_window := seconds 300;
     emotion_history := [heard NEUTRAL 70; heard POSITIVE 80; heard SAD 90];
     baseline_pitch := 150%float; baseline_energy := 0.5%float;
     baseline_tempo := 1%float;
     pitch_buffer := []; energy_buffer := []; tempo_buffer := [] |}.

Lemma readiness_three_entries_no_sad_witness :
  is_emotionally_ready_for_transition two_ready_one_sad (seconds 100) 60
  = false.
Proof.
  apply (proj2 (readiness_three_entries_no_sad two_ready_one_sad (seconds 100))
           [] (heard NEUTRAL 70) (heard POSITIVE 80) (heard SAD 90)).
  - reflexivity.
  - right. right. reflexivity.
Defined.

End ReadinessFacts.

(* ================================================================== *)
(** ** The emotion detector: feature extraction *)
(* ================================================================== *)

Module FeatureFacts.
Import Detector.
Open Scope float_scope.

Section AnyNumpy.
Context {np : Numpy}.

Lemma len_nonempty (audio : list float) :
  audio <> [] -> (len audio =? 0)%Z = false.
Proof.
  intros H. destruct audio as [|x audio]; [congruence|].
  unfold len. cbn [length]. apply Z.eqb_neq. lia.
Qed.

(** The sanity check returns the baseline or a pitch that passed both
    comparisons. *)
Lemma sanity_check_cases (self : EmotionDetector) (pitch : float) :
  ((pitch <? 80) || (400 <? pitch) = true
   /\ sanity_check self pitch = baseline_pitch self)
  \/ ((pitch <? 80) = false /\ (400 <? pitch) = false
      /\ sanity_check self pitch = pitch).
Proof.
  unfold sanity_check.
  destruct (pitch <? 80), (400 <? pitch); simpl; auto.
Qed.

Lemma estimate_out_of_range (self : EmotionDetector)
  (audio : list float) (sample_rate peak : Z) :
  find_peak audio sample_rate = Some (Peak peak) ->
  (period_to_pitch self sample_rate peak <? 80)
    || (400 <? period_to_pitch self sample_rate peak) = true ->
  _estimate_pitch self audio sample_rate = Some (baseline_pitch self).
Proof.
  intros Hpeak Hout. unfold _estimate_pitch. rewrite Hpeak.
  unfold sanity_check. rewrite Hout. reflexivity.
Qed.

(** Whatever the audio, a returned pitch is the baseline or lies within
    the two bounds. *)
Lemma estimate_pitch_checked (self : EmotionDetector)
  (audio : list float) (sample_rate : Z) (p : float) :
  _estimate_pitch self audio sample_rate = Some p ->
  p = baseline_pitch self \/ ((p <? 80) = false /\ (400 <? p) = false).
Proof.
  unfold _estimate_pitch.
  destruct (find_peak audio sample_rate) as [[|peak]|]; intros H;
    [injection H as <-; left; reflexivity | | discriminate].
  injection H as <-.
  destruct (sanity_check_cases self (period_to_pitch self sample_rate peak))
    as [[_ ->] | (Hlo & Hhi & ->)]; [left; reflexivity | right; auto].
Qed.

(** C7.  An empty chunk yields exactly the baseline pitch, the energy
    0.0 and the baseline tempo, without raising.  For a non-empty chunk
    whose autocorrelation search reaches a peak, a pitch estimate below
    80 Hz or above 400 Hz is replaced by the baseline pitch, which is
    then the pitch of the extracted features.  The baselines of a
    detector are the constants 150.0 Hz and 1.0. *)
Theorem extraction_falls_back_to_baseline :
  forall (self : EmotionDetector) (sample_rate : Z),
    _extract_audio_features self [] sample_rate
      = Some {| af_pitch := baseline_pitch self;
                af_energy := 0.0;
                af_tempo := baseline_tempo self |}
    /\ (forall w, baseline_pitch (init w) = 150.0
                  /\ baseline_tempo (init w) = 1.0)
    /\ (forall (audio : list float) (peak : Z),
          audio <> [] ->
          find_peak audio sample_rate = Some (Peak peak) ->
          (period_to_pitch self sample_rate peak <? 80)
            || (400 <? period_to_pitch self sample_rate peak) = true ->
          _estimate_pitch self audio sample_rate = Some (baseline_pitch self)
          /\ forall features,
               _extract_audio_features self audio sample_rate = Some features ->
               af_pitch features = baseline_pitch self).
Proof.
  intros self sample_rate. split; [reflexivity|]. split; [split; reflexivity|].
  intros audio peak Hne Hpeak Hout.
  pose proof (estimate_out_of_range self audio sample_rate peak Hpeak Hout)
    as Hpitch.
  split; [exact Hpitch|].
  intros features. unfold _extract_audio_features.
  rewrite (len_nonempty audio Hne), Hpitch.
  destruct (_estimate_tempo self audio sample_rate); [|discriminate].
  intros H. injection H as <-. reflexivity.
Qed.

End AnyNumpy.

(** Eight samples of silence at 500 Hz: the search window starts at the
    period 1, the estimate is 500 Hz, above the upper bound. *)
Definition silence : list float := repeat 0.0 8.

Lemma extraction_falls_back_to_baseline_witness :
  _estimate_pitch (np := Reference.numpy) (init 300) silence 500 = Some 150.0
  /\ forall features,
       _extract_audio_features (np := Reference.numpy) (init 300) silence 500
         = Some features ->
       af_pitch features = 150.0.
Proof.
  apply (proj2 (proj2 (extraction_falls_back_to_baseline
                         (np := Reference.numpy) (init 300) 500))
           silence 1%Z).
  - discriminate.
  - vm_compute. reflexivity.
  - vm_compute. reflexivity.
Defined.

End FeatureFacts.

(* ================================================================== *)
(** ** The emotion detector: the history window *)
(* ================================================================== *)

Module HistoryFacts.
Import Detector.
Open Scope Z_scope.

(** One call of [analyze_audio] with its two clock readings. *)
Record Call := {
  call_audio : list float;
  call_rate : Z;
  call_stamp : Z;
  call_cleanup : Z
}.

(** The clock never steps back: every reading is at least the one
    before, starting from [t]. *)
Fixpoint monotone (t : Z) (calls : list Call) : Prop :=
  match calls with
  | [] => True
  | c :: calls' =>
      t <= call_stamp c /\ call_stamp c <= call_cleanup c
      /\ monotone (call_cleanup c) calls'
  end.

(** The last reading of the clock. *)
Fixpoint final (t : Z) (calls : list Call) : Z :=
  match calls with
  | [] => t
  | c :: calls' => final (call_cleanup c) calls'
  end.

(** The history is in the order of its timestamps. *)
Fixpoint chronological (history : list EmotionState) : Prop :=
  match history with
  | [] => True
  | s :: rest =>
      Forall (fun s' => timestamp s <= timestamp s') rest /\ chronological rest
  end.

(** What every reachable detector satisfies at clock reading [t]. *)
Definition well_kept (window : Z) (self : EmotionDetector) (t : Z) : Prop :=
  history_window self = window
  /\ chronological (emotion_history self)
  /\ Forall (fun s => timestamp s <= t) (emotion_history self).

Lemma chronological_snoc (history : list EmotionState) (s : EmotionState) :
  chronological history ->
  Forall (fun s' => timestamp s' <= timestamp s) history ->
  chronological (history ++ [s]).
Proof.
  induction history as [|x history IH]; intros Hc Hle.
  - simpl. auto.
  - destruct Hc as [Hx Hc]. inversion Hle as [|? ? Hxs Hle']; subst.
    simpl. split.
    + apply Forall_app. split; [exact Hx | constructor; [exact Hxs | constructor]].
    + apply IH; assumption.
Qed.

Lemma popleft_keeps (P : EmotionState -> Prop) (cutoff : Z)
  (history : list EmotionState) :
  Forall P history -> Forall P (popleft_while_old cutoff history).
Proof.
  induction history as [|s rest IH]; intros H; [constructor|].
  simpl. destruct (timestamp s <? cutoff); [|exact H].
  apply IH. inversion H; assumption.
Qed.

Lemma popleft_chronological (cutoff : Z) (history : list EmotionState) :
  chronological history -> chronological (popleft_while_old cutoff history).
Proof.
  induction history as [|s rest IH]; intros H; [exact I|].
  simpl. destruct (timestamp s <? cutoff); [|exact H].
  apply IH. apply H.
Qed.

(** On a chronological history the loop leaves no entry older than the
    cutoff. *)
Lemma popleft_recent (cutoff : Z) (history : list EmotionState) :
  chronological history ->
  Forall (fun s => cutoff <= timestamp s) (popleft_while_old cutoff history).
Proof.
  induction history as [|s rest IH]; intros Hc; [constructor|].
  destruct Hc as [Hs Hrest].
  simpl. destruct (timestamp s <? cutoff) eqn:E.
  - apply IH. exact Hrest.
  - apply Z.ltb_ge in E. constructor; [exact E|].
    eapply Forall_impl; [|exact Hs]. simpl. intros s' H. lia.
Qed.

Section AnyNumpy.
Context {np : Numpy}.

(** The calls in sequence.  A call that raises does so while the
    features are extracted, before anything is stored: it leaves the
    detector as it was. *)
Definition step (self : EmotionDetector) (c : Call) : EmotionDetector :=
  match analyze_audio self (call_audio c) (call_rate c)
          (call_stamp c) (call_cleanup c) with
  | Some (self', _) => self'
  | None => self
  end.

Definition feed (self : EmotionDetector) (calls : list Call)
  : EmotionDetector :=
  fold_left step calls self.

Lemma monotone_app (t : Z) (calls more : list Call) :
  monotone t (calls ++ more) ->
  monotone t calls /\ monotone (final t calls) more.
Proof.
  revert t. induction calls as [|c calls IH]; intros t H; simpl in *.
  - auto.
  - destruct H as (H1 & H2 & H3). destruct (IH _ H3). auto.
Qed.

(** The call returns whenever the feature extraction does, as it does
    on an empty chunk. *)
Lemma analyze_audio_returns (self : EmotionDetector)
  (audio : list float) (rate stamp cleanup : Z) (features : AudioFeatures) :
  _extract_audio_features self audio rate = Some features ->
  exists self' state,
    analyze_audio self audio rate stamp cleanup = Some (self', state).
Proof.
  intros H. unfold analyze_audio. rewrite H.
  destruct (_classify_emotion _) as [e c]. eauto.
Qed.

(** One insertion: the new state is stamped, appended, and the history
    swept with the later reading. *)
Lemma analyze_audio_history (self self' : EmotionDetector)
  (audio : list float) (rate stamp cleanup : Z) (state : EmotionState) :
  analyze_audio self audio rate stamp cleanup = Some (self', state) ->
  timestamp state = stamp
  /\ history_window self' = history_window self
  /\ emotion_history self' =
       popleft_while_old (cleanup - history_window self)
         (emotion_history self ++ [state]).
Proof.
  unfold analyze_audio.
  destruct (_extract_audio_features self audio rate) as [features|];
    [|discriminate].
  destruct (_classify_emotion _) as [e c].
  intros H. injection H as <- <-. simpl. auto.
Qed.

Lemma analyze_audio_well_kept (window : Z) (self self' : EmotionDetector)
  (audio : list float) (rate t stamp cleanup : Z) (state : EmotionState) :
  well_kept window self t ->
  t <= stamp -> stamp <= cleanup ->
  analyze_audio self audio rate stamp cleanup = Some (self', state) ->
  well_kept window self' cleanup
  /\ Forall (fun s => cleanup - window <= timestamp s) (emotion_history self').
Proof.
  intros (Hw & Hc & Hle) Ht Hs Hrun.
  destruct (analyze_audio_history _ _ _ _ _ _ _ Hrun) as (Hstamp & Hw' & Hh).
  assert (Hc' : chronological (emotion_history self ++ [state])).
  { apply chronological_snoc; [exact Hc|].
    eapply Forall_impl; [|exact Hle]. simpl. intros s H. lia. }
  assert (Hle' : Forall (fun s => timestamp s <= cleanup)
                        (emotion_history self ++ [state])).
  { apply Forall_app. split.
    - eapply Forall_impl; [|exact Hle]. simpl. intros s H. lia.
    - constructor; [lia | constructor]. }
  unfold well_kept. rewrite Hh, Hw' , Hw. split.
  - split; [reflexivity|]. split.
    + apply popleft_chronological. exact Hc'.
    + apply popleft_keeps. exact Hle'.
  - apply popleft_recent. exact Hc'.
Qed.

Lemma well_kept_later (window : Z) (self : EmotionDetector) (t t' : Z) :
  well_kept window self t -> t <= t' -> well_kept window self t'.
Proof.
  intros (Hw & Hc & Hle) Ht. repeat split; auto.
  eapply Forall_impl; [|exact Hle]. simpl. intros s H. lia.
Qed.

Lemma step_well_kept (window : Z) (self : EmotionDetector) (t : Z) (c : Call) :
  well_kept window self t ->
  t <= call_stamp c -> call_stamp c <= call_cleanup c ->
  well_kept window (step self c) (call_cleanup c).
Proof.
  intros Hk H1 H2. unfold step.
  destruct (analyze_audio self _ _ _ _) as [[self' state]|] eqn:E.
  - exact (proj1 (analyze_audio_well_kept window _ _ _ _ _ _ _ _ Hk H1 H2 E)).
  - apply (well_kept_later window self t); [exact Hk | lia].
Qed.

Lemma feed_well_kept (window : Z) (calls : list Call) :
  forall (self : EmotionDetector) (t : Z),
    well_kept window self t ->
    monotone t calls ->
    well_kept window (feed self calls) (final t calls).
Proof.
  unfold feed.
  induction calls as [|c calls IH]; intros self t Hk Hm; simpl in *.
  - exact Hk.
  - destruct Hm as (H1 & H2 & H3).
    apply IH; [|exact H3].
    apply (step_well_kept window self t c); assumption.
Qed.

Lemma init_well_kept (history_window_seconds t : Z) :
  well_kept (seconds history_window_seconds) (init history_window_seconds) t.
Proof. repeat split; constructor. Qed.

(** What C8 says holds on a clock that never steps back.  A detector
    is built with a history window; any sequence of calls of
    [analyze_audio] follows.  After every call that inserts a state,
    whatever the calls before it did, no retained entry is older than
    the window, counted from the reading of the clock at which that
    call swept the history, and so from the time of the insertion as
    well. *)
Theorem history_within_window :
  forall (history_window_seconds t0 : Z) (calls : list Call) (last : Call)
         (self : EmotionDetector) (state : EmotionState),
    monotone t0 (calls ++ [last]) ->
    analyze_audio (feed (init history_window_seconds) calls)
      (call_audio last) (call_rate last) (call_stamp last) (call_cleanup last)
      = Some (self, state) ->
    timestamp state = call_stamp last
    /\ Forall (fun s =>
                 call_cleanup last - seconds history_window_seconds
                   <= timestamp s
                 /\ timestamp s <= call_cleanup last)
              (emotion_history self).
Proof.
  intros w t0 calls last self state Hm Hrun.
  apply monotone_app in Hm as [Hm Hlast].
  pose proof (feed_well_kept (seconds w) calls _ t0
                (init_well_kept w t0) Hm) as Hk1.
  simpl in Hlast. destruct Hlast as (H1 & H2 & _).
  destruct (analyze_audio_well_kept (seconds w) _ _ _ _ _ _ _ _ Hk1 H1 H2 Hrun)
    as [(_ & _ & Hle) Hrecent].
  split; [exact (proj1 (analyze_audio_history _ _ _ _ _ _ _ Hrun))|].
  apply Forall_forall. intros s Hs.
  rewrite Forall_forall in Hle, Hrecent. split; auto.
Qed.

End AnyNumpy.

(** Three empty chunks, at seconds 10, 200 and 400, swept half a second
    later each, with a window of 300 seconds: the first entry is gone
    after the third call. *)
Definition chunk_at (second : Z) : Call :=
  {| call_audio := []; call_rate := 16000;
     call_stamp := seconds second;
     call_cleanup := seconds second + 500000 |}.

Lemma history_within_window_witness :
  exists self state,
    analyze_audio (np := Reference.numpy)
      (feed (np := Reference.numpy) (init 300) [chunk_at 10; chunk_at 200])
      [] 16000 (seconds 400) (seconds 400 + 500000) = Some (self, state)
    /\ map timestamp (emotion_history self) = [seconds 200; seconds 400]
    /\ timestamp state = seconds 400
    /\ Forall (fun s =>
                 seconds 400 + 500000 - seconds 300 <= timestamp s
                 /\ timestamp s <= seconds 400 + 500000)
              (emotion_history self).
Proof.
  eexists. eexists. split; [vm_compute; reflexivity|]. split; [reflexivity|].
  apply (history_within_window (np := Reference.numpy) 300 0
           [chunk_at 10; chunk_at 200] (chunk_at 400)).
  - vm_compute. repeat split; discriminate.
  - vm_compute. reflexivity.
Defined.

(** C8, the failing input.  [datetime.now()] is the local wall clock
    and may step back.  With a window of 300 seconds and three calls
    whose readings are second 1000, second 500 and second 1250, the
    third call sweeps with the cutoff 950.5: the front entry, stamped
    1000, is not older, so the loop of [_cleanup_old_history] stops
    there and the entry stamped 500 behind it is retained, 750 seconds
    before the insertion.  The docstring of [_cleanup_old_history]
    reads: remove emotion states older than the history window. *)
Theorem history_keeps_entry_behind_front :
  exists self state,
    analyze_audio (np := Reference.numpy)
      (feed (np := Reference.numpy) (init 300) [chunk_at 1000; chunk_at 500])
      [] 16000 (seconds 1250) (seconds 1250 + 500000) = Some (self, state)
    /\ timestamp state = seconds 1250
    /\ history_window self = seconds 300
    /\ map timestamp (emotion_history self)
       = [seconds 1000; seconds 500; seconds 1250]
    /\ seconds 500 < timestamp state - history_window self
    /\ seconds 500 < seconds 1250 + 500000 - history_window self.
Proof.
  eexists. eexists. split; [vm_compute; reflexivity|].
  repeat split; reflexivity.
Qed.

End HistoryFacts.

(* ================================================================== *)
(** ** Data shared by the examples *)
(* ================================================================== *)

Module Fixtures.
Import Engine.
Open Scope string_scope.

Definition no_feedback : FeedbackData :=
  {| feedback_id := "f-1"; user_id := "u-1"; collection_date := 0%Z;
     themes := []; raw_comments := [] |}.

End Fixtures.

(* ================================================================== *)
(** ** The phase engine: transitions *)
(* ================================================================== *)

Module TransitionFacts.
Import Engine.
Open Scope string_scope.
Open Scope list_scope.
Open Scope Z_scope.

(** An engine that reached Coaching at second 100 and has recorded
    nothing in [phase_history]. *)
Definition coaching_state : R2C2State :=
  {| current_phase := COACHING; phase_start_time := 100 * 1000000;
     feedback_data := Fixtures.no_feedback; user_reactions := [];
     content_themes := []; development_plan := None;
     emotional_states := []; phase_history := [] |}.

Lemma index_phase_order (p : R2C2Phase) :
  index p phase_order =
  Some match p with
       | RELATIONSHIP => 0 | REACTION => 1 | CONTENT => 2 | COACHING => 3
       end%nat.
Proof. destruct p; reflexivity. Qed.

(** [transition_to_next_phase] never raises. *)
Lemma transition_total (s : R2C2State) (t1 t2 t3 : Z) :
  exists s' p, transition_to_next_phase s t1 t2 t3 = Some (s', p).
Proof.
  unfold transition_to_next_phase.
  rewrite index_phase_order.
  destruct (current_phase s); simpl; eauto.
Qed.

(** C1, as stated, fails: a transition requested in Coaching returns
    Coaching but leaves one more record in [phase_history]. *)
Lemma coaching_transition_appends_record :
  exists s',
    transition_to_next_phase coaching_state
      (130 * 1000000) (131 * 1000000) (132 * 1000000) = Some (s', COACHING)
    /\ phase_history coaching_state = []
    /\ phase_history s' =
       [ {| phase := "coaching"; duration := 30 * 1000000;
            ended_at := 131 * 1000000 |} ].
Proof.
  eexists. split; [reflexivity|]. split; reflexivity.
Qed.

(** C1, amended.  In Coaching, [transition_to_next_phase] returns
    Coaching and the phase stays Coaching; [phase_history] gains exactly
    one record, for the phase "coaching" with the time spent in it, and
    [phase_start_time] is reset to the current time.  Nothing else
    changes. *)
Theorem coaching_transition_stays :
  forall (s : R2C2State) (now_duration now_ended now_start : Z),
    current_phase s = COACHING ->
    exists s',
      transition_to_next_phase s now_duration now_ended now_start
        = Some (s', COACHING)
      /\ current_phase s' = COACHING
      /\ phase_history s' =
           phase_history s ++
             [ {| phase := "coaching";
                  duration := now_duration - phase_start_time s;
                  ended_at := now_ended |} ]
      /\ phase_start_time s' = now_start
      /\ feedback_data s' = feedback_data s
      /\ user_reactions s' = user_reactions s
      /\ content_themes s' = content_themes s
      /\ development_plan s' = development_plan s
      /\ emotional_states s' = emotional_states s.
Proof.
  intros s t1 t2 t3 Hphase.
  unfold transition_to_next_phase.
  rewrite index_phase_order, Hphase.
  simpl.
  eexists. split; [reflexivity|].
  simpl. unfold get_time_in_phase.
  repeat split; reflexivity.
Qed.

Lemma coaching_transition_stays_witness :
  exists s',
    transition_to_next_phase coaching_state 130000000 131000000 132000000
      = Some (s', COACHING)
    /\ current_phase s' = COACHING
    /\ phase_history s' =
         phase_history coaching_state ++
           [ {| phase := "coaching";
                duration := 130000000 - phase_start_time coaching_state;
                ended_at := 131000000 |} ]
    /\ phase_start_time s' = 132000000
    /\ feedback_data s' = feedback_data coaching_state
    /\ user_reactions s' = user_reactions coaching_state
    /\ content_themes s' = content_themes coaching_state
    /\ development_plan s' = development_plan coaching_state
    /\ emotional_states s' = emotional_states coaching_state.
Proof.
  apply (coaching_transition_stays coaching_state
           130000000 131000000 132000000).
  reflexivity.
Defined.

(** *** [should_transition] in the Reaction phase *)

Definition felt (e : string) (second : Z) : EmotionState :=
  {| emotion := e; confidence := 0.8%float;
     timestamp := second * 1000000; audio_features := [] |}.

(** Reaction entered at second 0; three emotions in the last minute
    before second 181, the latest of them sad. *)
Definition reaction_state : R2C2State :=
  {| current_phase := REACTION; phase_start_time := 0;
     feedback_data := Fixtures.no_feedback; user_reactions := [];
     content_themes := []; development_plan := None;
     emotional_states :=
       [ felt "neutral" 150; felt "neutral" 160; felt "sad" 170 ];
     phase_history := [] |}.

(** The ceiling: from 600 seconds on, Reaction ends whatever the
    emotions are. *)
Lemma reaction_ceiling (s : R2C2State) (e : option EmotionState) (t1 t2 : Z) :
  current_phase s = REACTION ->
  600 * 1000000 <= get_time_in_phase s t1 ->
  snd (should_transition s e t1 t2) = true.
Proof.
  intros Hphase Ht.
  unfold should_transition. rewrite Hphase. simpl.
  assert (H600 : at_least (get_time_in_phase s t1) 600 = true)
    by (unfold at_least; apply Z.leb_le; exact Ht).
  rewrite H600.
  destruct (at_least _ REACTION_MIN_DURATION && _); reflexivity.
Qed.

(** Between the floor and the ceiling the answer is the engine's own
    readiness test, which counts Neutral and Positive entries and has
    no test for Sad. *)
Lemma reaction_between (s : R2C2State) (t1 t2 : Z) :
  current_phase s = REACTION ->
  180 * 1000000 <= get_time_in_phase s t1 < 600 * 1000000 ->
  snd (should_transition s None t1 t2)
  = is_emotionally_ready_for_transition s t2.
Proof.
  intros Hphase [Hlo Hhi].
  unfold should_transition. rewrite Hphase. simpl.
  assert (H180 : at_least (get_time_in_phase s t1) REACTION_MIN_DURATION = true)
    by (unfold at_least, REACTION_MIN_DURATION; apply Z.leb_le; exact Hlo).
  assert (H600 : at_least (get_time_in_phase s t1) 600 = false)
    by (unfold at_least; apply Z.leb_gt; exact Hhi).
  rewrite H180, H600. simpl.
  destruct (is_emotionally_ready_for_transition s t2); reflexivity.
Qed.

(** C3, the failing input.  At second 181 of Reaction the sample of
    the last 60 seconds is neutral, neutral, sad: it contains a Sad
    entry, and [should_transition] answers true. *)
Theorem reaction_transitions_despite_sad :
  let now := 181 * 1000000 in
  get_time_in_phase reaction_state now = 181 * 1000000
  /\ map emotion (get_recent_emotions reaction_state now 60)
     = ["neutral"; "neutral"; "sad"]
  /\ snd (should_transition reaction_state None now now) = true.
Proof.
  repeat split; reflexivity.
Qed.

End TransitionFacts.

(* ================================================================== *)
(** ** Readiness: the engine's test against the detector's *)
(* ================================================================== *)

Module ReadinessDivergence.
Open Scope string_scope.
Open Scope list_scope.
Open Scope Z_scope.

(** The engine in Reaction with one neutral entry, at second 170. *)
Definition lone_neutral : Engine.R2C2State :=
  {| Engine.current_phase := Engine.REACTION; Engine.phase_start_time := 0;
     Engine.feedback_data := Fixtures.no_feedback;
     Engine.user_reactions := [];
     Engine.content_themes := []; Engine.development_plan := None;
     Engine.emotional_states := [ TransitionFacts.felt "neutral" 170 ];
     Engine.phase_history := [] |}.

(** A detector that holds the given history. *)
Definition detector_with (history : list Detector.EmotionState)
  : Detector.EmotionDetector :=
  {| Detector.history_window := Detector.seconds 300;
     Detector.emotion_history := history;
     Detector.baseline_pitch := 150%float;
     Detector.baseline_energy := 0.5%float;
     Detector.baseline_tempo := 1%float;
     Detector.pitch_buffer := []; Detector.energy_buffer := [];
     Detector.tempo_buffer := [] |}.

(** The reading of the clock at second 181. *)
Definition second_181 : Z := 181 * 1000000.

(** With fewer than three entries the engine's sample is all of them,
    and it is ready as soon as half of them are neutral or positive. *)
Lemma engine_ready_on_short_sample (s : Engine.R2C2State) (now : Z) :
  let recent := Engine.get_recent_emotions s now 60 in
  recent <> [] ->
  (length recent < 3)%nat ->
  Engine.is_emotionally_ready_for_transition s now
  = (length recent
     <=? 2 * length (filter (fun e => Engine.mem (Engine.emotion e)
                                         Engine.READY_EMOTIONS) recent))%nat.
Proof.
  intros recent Hne Hlen. unfold Engine.is_emotionally_ready_for_transition.
  fold recent. destruct recent as [|e rest] eqn:E; [congruence|].
  apply Nat.leb_gt in Hlen. rewrite Hlen. reflexivity.
Qed.

(** C2, the failing inputs: the engine's [is_emotionally_ready_for_transition]
    at second 181.  With a single neutral entry in the last 60 seconds
    it answers true, where the claim says false for fewer than 3
    entries.  With neutral, neutral, sad it answers true, where the
    claim says false for a sample that holds a Sad entry.  The
    detector's method of the same name answers false on both
    histories. *)
Theorem engine_ready_without_guards :
  (map Engine.emotion (Engine.get_recent_emotions lone_neutral second_181 60)
     = ["neutral"]
   /\ Engine.is_emotionally_ready_for_transition lone_neutral second_181
      = true
   /\ Detector.is_emotionally_ready_for_transition
        (detector_with [ReadinessFacts.heard Detector.NEUTRAL 170])
        second_181 60
      = false)
  /\ (map Engine.emotion
         (Engine.get_recent_emotions TransitionFacts.reaction_state
            second_181 60)
       = ["neutral"; "neutral"; "sad"]
      /\ Engine.is_emotionally_ready_for_transition
           TransitionFacts.reaction_state second_181
         = true
      /\ Detector.is_emotionally_ready_for_transition
           (detector_with [ReadinessFacts.heard Detector.NEUTRAL 150;
                           ReadinessFacts.heard Detector.NEUTRAL 160;
                           ReadinessFacts.heard Detector.SAD 170])
           second_181 60
         = false).
Proof.
  repeat split; reflexivity.
Qed.

End ReadinessDivergence.

(* ================================================================== *)
(** ** The phase engine: what an utterance extracts *)
(* ================================================================== *)

Module ExtractionFacts.
Import Engine.
Open Scope string_scope.
Open Scope list_scope.

(** *** Occurrences in a text without letters *)

(** A word that occurs in a text starts with a character of the text. *)
Lemma contains_first_char (p : ascii -> bool) (c : ascii) (word : string) :
  forall text,
    Py.all_chars p text = true ->
    Py.contains (String c word) text = true ->
    p c = true.
Proof.
  induction text as [|a text IH]; intros Hall Hin.
  - simpl in Hin. discriminate.
  - simpl in Hall. apply andb_true_iff in Hall as [Ha Hall].
    cbn [Py.contains] in Hin.
    destruct (String.prefix (String c word) (String a text)) eqn:Hpre.
    + cbn [String.prefix] in Hpre.
      destruct (ascii_dec c a) as [->|]; [exact Ha | discriminate].
    + exact (IH Hall Hin).
Qed.

Lemma lower_char_space (c : ascii) :
  Py.isspace c = true -> Py.lower_char c = c.
Proof.
  destruct c as [b0 b1 b2 b3 b4 b5 b6 b7].
  destruct b0, b1, b2, b3, b4, b5, b6, b7; vm_compute; intros H;
    first [reflexivity | discriminate H].
Qed.

Lemma lower_blank (text : string) :
  Py.all_chars Py.isspace text = true -> Py.lower text = text.
Proof.
  induction text as [|a text IH]; intros H; [reflexivity|].
  simpl in H. apply andb_true_iff in H as [Ha H].
  simpl. rewrite (lower_char_space a Ha), (IH H). reflexivity.
Qed.

(** No word that starts with a character other than a space occurs in
    the lower-cased form of a blank text. *)
Lemma blank_contains (text : string) (c : ascii) (word : string) :
  Py.all_chars Py.isspace text = true ->
  Py.isspace c = false ->
  Py.contains (String c word) (Py.lower text) = false.
Proof.
  intros Hblank Hc.
  rewrite (lower_blank text Hblank).
  destruct (Py.contains (String c word) text) eqn:E; [|reflexivity].
  rewrite (contains_first_char Py.isspace c word text Hblank E) in Hc.
  discriminate.
Qed.

Definition starts_with_letter (word : string) : bool :=
  match word with
  | String c _ => negb (Py.isspace c)
  | EmptyString => false
  end.

Lemma blank_any_in (text : string) (words : list string) :
  Py.all_chars Py.isspace text = true ->
  forallb starts_with_letter words = true ->
  any_in words (Py.lower text) = false.
Proof.
  intros Hblank. unfold any_in.
  induction words as [|w words IH]; intros Hw; [reflexivity|].
  simpl in Hw. apply andb_true_iff in Hw as [Hw Hws].
  simpl. rewrite (IH Hws), orb_false_r.
  destruct w as [|c w]; [discriminate|].
  apply blank_contains; [exact Hblank|].
  simpl in Hw. apply negb_true_iff in Hw. exact Hw.
Qed.

Lemma blank_goal_type (text : string) :
  Py.all_chars Py.isspace text = true ->
  detect_goal_type (Py.lower text) = None.
Proof.
  intros Hblank. unfold detect_goal_type.
  rewrite !(blank_any_in text) by (exact Hblank || reflexivity).
  reflexivity.
Qed.

(** The theme loop leaves the list alone when no keyword occurs. *)
Lemma themes_unchanged (text : string) (ks themes : list string) :
  (forall k, In k ks -> Py.contains k text = false) ->
  fold_left
    (fun themes keyword =>
       if Py.contains keyword text && negb (mem keyword themes)
       then themes ++ [keyword] else themes)
    ks themes = themes.
Proof.
  revert themes.
  induction ks as [|k ks IH]; intros themes Hks; [reflexivity|].
  simpl. rewrite (Hks k (or_introl eq_refl)). simpl.
  apply IH. intros k' Hk'. apply Hks. right. exact Hk'.
Qed.

Lemma blank_themes (s : R2C2State) (text : string) :
  Py.all_chars Py.isspace text = true ->
  _extract_content_themes s text = s.
Proof.
  intros Hblank. unfold _extract_content_themes.
  rewrite themes_unchanged.
  - destruct s; reflexivity.
  - intros k Hk.
    assert (Hall : forallb starts_with_letter keywords = true) by reflexivity.
    rewrite forallb_forall in Hall. specialize (Hall k Hk).
    destruct k as [|c k]; [discriminate|].
    apply blank_contains; [exact Hblank|].
    simpl in Hall. apply negb_true_iff in Hall. exact Hall.
Qed.

(** *** Empty and whitespace-only responses *)

(** Coaching reached, nothing planned yet. *)
Definition unplanned_coaching : R2C2State :=
  {| current_phase := COACHING; phase_start_time := 0%Z;
     feedback_data := Fixtures.no_feedback; user_reactions := [];
     content_themes := []; development_plan := None;
     emotional_states := []; phase_history := [] |}.

(** C4, as stated, fails: in Coaching an empty response creates the
    development plan. *)
Lemma empty_response_creates_plan :
  development_plan unplanned_coaching = None
  /\ development_plan (record_user_response unplanned_coaching "" None 5 6)
     = Some {| goals := []; created_at := Some 5%Z |}.
Proof. split; reflexivity. Qed.

(** C4, amended.  In every phase an empty or whitespace-only response
    leaves [content_themes] and the goals of the plan unchanged, and
    the call returns.  The plan itself is unchanged except in Coaching
    with no plan yet: there the response creates an empty plan,
    stamped with the current time. *)
Theorem blank_response_extracts_nothing :
  forall (s : R2C2State) (text : string) (emotion : option EmotionState)
         (now_created now_goal : Z),
    Py.all_chars Py.isspace text = true ->
    let s' := record_user_response s text emotion now_created now_goal in
    content_themes s' = content_themes s
    /\ plan_goals s' = plan_goals s
    /\ (current_phase s <> COACHING -> development_plan s' = development_plan s)
    /\ (development_plan s <> None -> development_plan s' = development_plan s)
    /\ (current_phase s = COACHING -> development_plan s = None ->
        development_plan s' =
          Some {| goals := []; created_at := Some now_created |}).
Proof.
  intros s text emotion t1 t2 Hblank s'. subst s'.
  unfold record_user_response.
  set (s1 := match emotion with
             | Some e => set_emotional_states (emotional_states s ++ [e]) s
             | None => s
             end).
  assert (Hphase : current_phase s1 = current_phase s)
    by (subst s1; destruct emotion; reflexivity).
  assert (Hthemes : content_themes s1 = content_themes s)
    by (subst s1; destruct emotion; reflexivity).
  assert (Hplan : development_plan s1 = development_plan s)
    by (subst s1; destruct emotion; reflexivity).
  assert (Hgoals : plan_goals s1 = plan_goals s)
    by (unfold plan_goals; rewrite Hplan; reflexivity).
  rewrite Hphase.
  destruct (current_phase s) eqn:Hcur.
  - (* Relationship *)
    repeat split; auto; discriminate.
  - (* Reaction *)
    repeat split; auto; discriminate.
  - (* Content *)
    rewrite (blank_themes s1 text Hblank).
    repeat split; auto; discriminate.
  - (* Coaching *)
    unfold _extract_development_items.
    rewrite (blank_goal_type text Hblank).
    unfold plan_goals in *. simpl. rewrite Hplan.
    destruct (development_plan s) as [plan|] eqn:Hp.
    + repeat split; auto; try reflexivity; intros; congruence.
    + repeat split; auto; try reflexivity; intros; congruence.
Qed.

Lemma blank_response_extracts_nothing_witness :
  let s := unplanned_coaching in
  let s' := record_user_response s "   " None 5 6 in
  content_themes s' = content_themes s
  /\ plan_goals s' = plan_goals s
  /\ (current_phase s <> COACHING -> development_plan s' = development_plan s)
  /\ (development_plan s <> None -> development_plan s' = development_plan s)
  /\ (current_phase s = COACHING -> development_plan s = None ->
      development_plan s' = Some {| goals := []; created_at := Some 5%Z |}).
Proof.
  apply (blank_response_extracts_nothing unplanned_coaching "   " None 5 6).
  reflexivity.
Defined.

(** *** The type of an extracted goal *)

Definition family_count (response_lower : string) : nat :=
  (if any_in start_words response_lower then 1 else 0)
  + (if any_in stop_words response_lower then 1 else 0)
  + (if any_in continue_words response_lower then 1 else 0).

(** The families are tried in the order Start, Stop, Continue. *)
Lemma detect_goal_type_priority (text : string) :
  detect_goal_type text =
    if any_in start_words text then Some "start"
    else if any_in stop_words text then Some "stop"
    else if any_in continue_words text then Some "continue"
    else None.
Proof. reflexivity. Qed.

Lemma two_families_detected (text : string) :
  (2 <= family_count text)%nat ->
  detect_goal_type text =
    Some (if any_in start_words text then "start" else "stop").
Proof.
  unfold family_count, detect_goal_type.
  destruct (any_in start_words text), (any_in stop_words text),
           (any_in continue_words text); simpl; intros H;
    first [reflexivity | lia].
Qed.

(** C10.  A Coaching-phase response of more than 20 characters whose
    lower-cased text contains words of at least two goal families
    appends exactly one goal, described by the raw response; its type
    is Start when a Start word occurs, and otherwise Stop (Stop before
    Continue). *)
Theorem coaching_goal_priority :
  forall (s : R2C2State) (response : string) (emotion : option EmotionState)
         (now_created now_goal : Z),
    current_phase s = COACHING ->
    (20 < String.length response)%nat ->
    (2 <= family_count (Py.lower response))%nat ->
    let s' := record_user_response s response emotion now_created now_goal in
    plan_goals s' =
      plan_goals s ++
        [ {| goal_type :=
               if any_in start_words (Py.lower response) then "start"
               else "stop";
             description := response;
             goal_timestamp := now_goal |} ].
Proof.
  intros s response emotion t1 t2 Hphase Hlen Hfam s'. subst s'.
  unfold record_user_response.
  set (s1 := match emotion with
             | Some e => set_emotional_states (emotional_states s ++ [e]) s
             | None => s
             end).
  assert (H1 : current_phase s1 = COACHING)
    by (subst s1; destruct emotion; exact Hphase).
  assert (Hplan : development_plan s1 = development_plan s)
    by (subst s1; destruct emotion; reflexivity).
  rewrite H1.
  unfold _extract_development_items.
  rewrite (two_families_detected _ Hfam).
  apply Nat.ltb_lt in Hlen. rewrite Hlen.
  unfold plan_goals. simpl. rewrite Hplan.
  destruct (development_plan s); reflexivity.
Qed.

(** The utterance names a Stop word before a Start word; the goal is a
    Start goal all the same. *)
Definition mixed_response : string :=
  "I will stop interrupting and start listening".

Lemma coaching_goal_priority_witness :
  plan_goals (record_user_response unplanned_coaching mixed_response None 5 6)
  = [ {| goal_type := "start"; description := mixed_response;
         goal_timestamp := 6%Z |} ].
Proof.
  apply (coaching_goal_priority unplanned_coaching mixed_response None 5 6).
  - reflexivity.
  - vm_compute. lia.
  - vm_compute. lia.
Defined.

End ExtractionFacts.

(* ================================================================== *)
(** ** The phase engine: snapshot and restore *)
(* ================================================================== *)

Module SnapshotFacts.
Import Engine.
Open Scope string_scope.
Open Scope list_scope.
Open Scope Z_scope.

Lemma deref_assign_same (h : Store) (r : ref) (s s0 : R2C2State) :
  deref h r = Some s0 -> deref (assign h r s) r = Some s.
Proof.
  revert r. induction h as [|x h IH]; intros [|r] H; simpl in *;
    try discriminate; auto.
Qed.

(** C9.  Restoring the snapshot taken by [get_state], into the same
    engine or into another one, yields an engine whose state has the
    [current_phase] and the [phase_start_time] of the snapshot: the
    restored engine denotes the very state object the snapshot
    denotes. *)
Theorem snapshot_restore_roundtrip :
  forall (h : Store) (source target : R2C2Engine) (s : R2C2State),
    deref h (state source) = Some s ->
    let snapshot := get_state source in
    let restored := restore_state target snapshot in
    get_state restored = snapshot
    /\ exists s',
         deref h (state restored) = Some s'
         /\ current_phase s' = current_phase s
         /\ phase_start_time s' = phase_start_time s.
Proof.
  intros h source target s Hs snapshot restored.
  subst snapshot restored.
  unfold restore_state, get_state. simpl.
  split; [reflexivity|].
  exists s. repeat split. exact Hs.
Qed.

(** An engine built at second 7. *)
Definition fresh : Store * R2C2Engine :=
  new [] Fixtures.no_feedback 7000000 7000001.

Lemma snapshot_restore_roundtrip_witness :
  let h := fst fresh in
  let e := snd fresh in
  get_state (restore_state e (get_state e)) = get_state e
  /\ exists s',
       deref h (state (restore_state e (get_state e))) = Some s'
       /\ current_phase s' = RELATIONSHIP
       /\ phase_start_time s' = 7000000.
Proof.
  apply (snapshot_restore_roundtrip (fst fresh) (snd fresh) (snd fresh)
           (initial_state Fixtures.no_feedback 7000000)).
  reflexivity.
Defined.

(** The snapshot is the live object, not a copy: a transition performed
    through the engine after [get_state] is seen through the snapshot,
    and restoring the snapshot does not undo it. *)
Lemma snapshot_is_live :
  let h := fst fresh in
  let e := snd fresh in
  let snapshot := get_state e in
  exists h',
    invoke (fun s => transition_to_next_phase s 9000000 9000001 9000002) h e
      = Some (h', REACTION)
    /\ option_map current_phase (deref h snapshot) = Some RELATIONSHIP
    /\ option_map current_phase (deref h' (state (restore_state e snapshot)))
       = Some REACTION.
Proof.
  eexists. split; [reflexivity|]. split; reflexivity.
Qed.

End SnapshotFacts.

(* ================================================================== *)
(** ** Scenarios *)
(* ================================================================== *)

Module Scenarios.
Import Engine.
Open Scope string_scope.
Open Scope list_scope.
Open Scope Z_scope.

(** Low energy, slow tempo, flat pitch: Sad. *)
Example classify_sad :
  fst (Detector._classify_emotion
         {| Detector.pitch := 150%float; Detector.pitch_variance := 10%float;
            Detector.energy := 0.2%float; Detector.tempo := 0.6%float |})
  = Detector.SAD.
Proof. vm_compute. reflexivity. Qed.

(** A square wave of period 8 sampled at 1600 Hz is heard at 200 Hz. *)
Example square_wave_pitch :
  Detector._estimate_pitch (np := Reference.numpy) (Detector.init 300)
    (concat (repeat [1; 1; 1; 1; -1; -1; -1; -1]%float 3)) 1600
  = Some 200%float.
Proof. vm_compute. reflexivity. Qed.

(** A sample rate of 0 on a non-empty chunk raises (division by zero in
    the tempo estimate). *)
Example zero_rate_raises :
  Detector._extract_audio_features (np := Reference.numpy) (Detector.init 300)
    [0.5; -0.5]%float 0
  = None.
Proof. vm_compute. reflexivity. Qed.

(** An engine built at second 0 with no emotion fed: no transition at
    second 0, a transition at second 130, which leads to Reaction and
    leaves one record, for "relationship". *)
Example relationship_floor :
  let s := initial_state Fixtures.no_feedback 0 in
  snd (should_transition s None 0 0) = false
  /\ snd (should_transition s None 130000000 130000000) = true
  /\ exists s',
       transition_to_next_phase s 130000000 130000000 130000000
         = Some (s', REACTION)
       /\ map phase (phase_history s') = ["relationship"].
Proof.
  split; [reflexivity|]. split; [reflexivity|].
  eexists. split; reflexivity.
Qed.

(** The same Content-phase utterance twice adds its theme once. *)
Example theme_recorded_once :
  let s := set_phase CONTENT 0 (initial_state Fixtures.no_feedback 0) in
  let said := "I struggle with Delegation" in
  content_themes
    (record_user_response (record_user_response s said None 1 1) said None 2 2)
  = ["delegation"].
Proof. vm_compute. reflexivity. Qed.

End Scenarios.

(* ================================================================== *)
(** ** Counting with a dictionary, and the most frequent key

    The idiom shared by [get_emotion_trend], [get_pacing_recommendation],
    [_get_emotional_adaptation_guidance] and [_analyze_emotional_journey]:
    [[
      counts = {}
      for x in items: counts[x] = counts.get(x, 0) + 1
      max(counts, key=counts.get)
    ]] *)
(* ================================================================== *)

Module Tally.

Section Counting.
Context {K : Type} (eqb : K -> K -> bool).



(** [counts.get(k)], 0 for an absent key. *)
Fixpoint get (counts : list (K * nat)) (k : K) : nat :=
  match counts with
  | [] => 0%nat
  | (k', n) :: rest => if eqb k k' then n else get rest k
  end.

(** [max(keys, key=value)]: a later key replaces the best one only
    when its value is strictly greater. *)
Fixpoint max_from (value : K -> nat) (best : K) (keys : list K) : K :=
  match keys with
  | [] => best
  | k :: keys' =>
      max_from value (if (value best <? value k)%nat then k else best) keys'
  end.


(** The number of items equal to [k]. *)
Definition occurrences (k : K) (items : list K) : nat :=
  length (filter (eqb k) items).

End Counting.

End Tally.

(* ================================================================== *)
(** ** The most frequent key: what the idiom computes *)
(* ================================================================== *)

Module TallyFacts.
Import Tally.

Section Counting.
Context {K : Type} (eqb : K -> K -> bool).
Hypothesis eqb_eq : forall a b, eqb a b = true <-> a = b.

Lemma eqb_refl (a : K) : eqb a a = true.
Proof. apply eqb_eq. reflexivity. Qed.

Lemma eqb_sym (a b : K) : eqb a b = eqb b a.
Proof.
  destruct (eqb a b) eqn:E1, (eqb b a) eqn:E2; try reflexivity.
  - apply eqb_eq in E1. subst. rewrite eqb_refl in E2. discriminate.
  - apply eqb_eq in E2. subst. rewrite eqb_refl in E1. discriminate.
Qed.














End Counting.

End TallyFacts.

(* ================================================================== *)
(** ** [emotion_detector.py]: the queries on the history *)
(* ================================================================== *)

Module DetectorQueries.
Import Detector.
Open Scope Z_scope.




End DetectorQueries.

(* ================================================================== *)
(** ** The emotion detector: trend, history windows, sweep, reset *)
(* ================================================================== *)

Module DetectorQueryFacts.
Import Detector DetectorQueries.
Open Scope Z_scope.


(** How often an emotion occurs among states. *)
Definition times (e : EmotionType) (states : list EmotionState) : nat :=
  Tally.occurrences EmotionType_eqb e (map emotion states).


Definition heard (e : EmotionType) (second : Z) : EmotionState :=
  {| emotion := e; confidence := 0.8%float; timestamp := seconds second;
     audio_features :=
       {| pitch := 150%float; pitch_variance := 0%float;
          energy := 0.5%float; tempo := 1%float |} |}.

Definition with_history (history : list EmotionState) : EmotionDetector :=
  {| history_window := seconds 300;
     emotion_history := history;
     baseline_pitch := 150%float; baseline_energy := 0.5%float;
     baseline_tempo := 1%float;
     pitch_buffer := []; energy_buffer := []; tempo_buffer := [] |}.



(** *** Windows of the history *)





(** *** The sweep on any history *)


End DetectorQueryFacts.

(* ================================================================== *)
(** ** Comparisons of binary64 numbers, and Python's [min] and [max] *)
(* ================================================================== *)

Module FloatFacts.
Open Scope float_scope.





End FloatFacts.

(* ================================================================== *)
(** ** The emotion detector: what every reachable detector satisfies *)
(* ================================================================== *)

Module DetectorInvariants.
Import Detector DetectorQueries.
Open Scope float_scope.

(** *** The classifier never goes below its minimum confidence *)




(** *** The readiness test, completed *)



Definition heard (e : EmotionType) (second : Z) : EmotionState :=
  DetectorQueryFacts.heard e second.

(** Frustrated once, then Neutral and Positive, all within the last
    minute before second 100. *)
Definition settling : EmotionDetector :=
  DetectorQueryFacts.with_history
    [heard FRUSTRATED 50; heard NEUTRAL 70; heard POSITIVE 90].


Section AnyNumpy.
Context {np : Numpy}.











End AnyNumpy.



End DetectorInvariants.

From Stdlib Require DecimalString.

(* ================================================================== *)
(** ** [engine.py]: pacing, emotional journey, insights, summary *)
(* ================================================================== *)

Module EngineReports.
Import Engine.
Open Scope string_scope.
Open Scope list_scope.
Open Scope Z_scope.




(** *** [get_pacing_recommendation] *)



(** *** [_analyze_emotional_journey] *)




(** *** [_format_development_plan] *)



(** *** [_generate_key_insights] *)



(** *** [get_session_summary] *)





End EngineReports.

(* ================================================================== *)
(** ** [processors/emotion_processor.py]: which emotions are forwarded *)
(* ================================================================== *)

Module EmotionProcessor.
Import Detector.
Open Scope Z_scope.

(** The attributes of the processor that decide the forwarding. *)
Record EmotionProcessor := {
  _last_emotion : option EmotionType;
  _last_emotion_time : option Z
}.

(** [__init__] *)
Definition init : EmotionProcessor :=
  {| _last_emotion := None; _last_emotion_time := None |}.




End EmotionProcessor.

(* ================================================================== *)
(** ** [processors/r2c2_processor.py]: transcriptions and prompt updates *)
(* ================================================================== *)

Module R2C2Processor.
Import Engine.
Open Scope string_scope.
Open Scope list_scope.
Open Scope Z_scope.

(** [s.strip()]: the whitespace at both ends removed. *)
Fixpoint lstrip (s : string) : string :=
  match s with
  | EmptyString => EmptyString
  | String c s' => if Py.isspace c then lstrip s' else s
  end.

Fixpoint rstrip (s : string) : string :=
  match s with
  | EmptyString => EmptyString
  | String c s' =>
      match rstrip s' with
      | EmptyString => if Py.isspace c then EmptyString else String c EmptyString
      | rest => String c rest
      end
  end.

Definition strip (s : string) : string := rstrip (lstrip s).

Record R2C2Processor := {
  _last_phase : R2C2Phase;
  _phase_prompt_injected : bool
}.

(** [__init__], on an engine whose state is [s]. *)
Definition init (s : R2C2State) : R2C2Processor :=
  {| _last_phase := current_phase s; _phase_prompt_injected := false |}.

(** *** [_should_update_for_emotion] *)


(** [l[-1]] on a list that may be empty. *)
Definition final {A : Type} (l : list A) : option A :=
  match l with
  | [] => None
  | x :: l' => Some (last l' x)
  end.


(** *** [_handle_user_transcription] *)

(** The clock readings of one call, in the order they are taken: by
    [record_user_response] (plan creation, goal), [should_transition]
    (time in phase, recent emotions) and [transition_to_next_phase]
    (duration, end of phase, start of phase). *)
Record Ticks := {
  tick_created : Z;
  tick_goal : Z;
  tick_phase : Z;
  tick_emotions : Z;
  tick_duration : Z;
  tick_ended : Z;
  tick_start : Z
}.

(** The result: the processor, the engine state, and the phase
    transition event sent to the front end, if any.  Were
    [transition_to_next_phase] to raise, the [except] branch would leave
    the state with the record it had already appended. *)
Definition _handle_user_transcription (self : R2C2Processor) (s : R2C2State)
  (user_text : string) (ticks : Ticks)
  : R2C2Processor * R2C2State * option (R2C2Phase * R2C2Phase) :=
  if (String.length user_text =? 0)%nat
     || (String.length (strip user_text) =? 0)%nat
  then (self, s, None)
  else
    let s := record_user_response s user_text None
               (tick_created ticks) (tick_goal ticks) in
    let current_phase := current_phase s in
    let '(s, should_transition) :=
      should_transition s None (tick_phase ticks) (tick_emotions ticks) in
    if should_transition then
      match transition_to_next_phase s
              (tick_duration ticks) (tick_ended ticks) (tick_start ticks) with
      | Some (s, new_phase) =>
          if negb (R2C2Phase_eqb new_phase current_phase) then
            ({| _last_phase := new_phase; _phase_prompt_injected := false |},
             s, Some (current_phase, new_phase))
          else (self, s, None)
      | None =>
          (self,
           set_phase_history
             (phase_history s ++
                [ {| phase := value current_phase;
                     duration := get_time_in_phase s (tick_duration ticks);
                     ended_at := tick_ended ticks |} ]) s,
           None)
      end
    else (self, s, None).

(** *** [_inject_phase_context] *)







(** *** A session *)




End R2C2Processor.

(* ================================================================== *)
(** ** The phase engine: floors, ceilings, and the order of phases *)
(* ================================================================== *)

Module DecisionFacts.
Import Engine.
Open Scope string_scope.
Open Scope list_scope.
Open Scope Z_scope.







Definition felt (e : string) (second : Z) : EmotionState :=
  {| emotion := e; confidence := 0.8%float;
     timestamp := second * 1000000; audio_features := [] |}.





(** *** The order of the phases *)








End DecisionFacts.

(* ================================================================== *)
(** ** The phase engine: themes and goals over many utterances *)
(* ================================================================== *)

Module UtteranceFacts.
Import Engine.
Open Scope string_scope.
Open Scope list_scope.











(** *** Goals *)




End UtteranceFacts.

(* ================================================================== *)
(** ** The two readiness tests compared *)
(* ================================================================== *)

Module ReadinessRelation.
Open Scope string_scope.
Open Scope list_scope.
Open Scope Z_scope.

(** [EmotionType.value] *)
Definition value (e : Detector.EmotionType) : string :=
  match e with
  | Detector.NEUTRAL => "neutral"
  | Detector.DEFENSIVE => "defensive"
  | Detector.FRUSTRATED => "frustrated"
  | Detector.SAD => "sad"
  | Detector.ANXIOUS => "anxious"
  | Detector.POSITIVE => "positive"
  end.







(** Frustrated once, then Neutral and Positive, all within the last
    minute before second 100. *)
Definition settling : Detector.EmotionDetector :=
  DetectorQueryFacts.with_history
    [ DetectorQueryFacts.heard Detector.FRUSTRATED 50;
      DetectorQueryFacts.heard Detector.NEUTRAL 70;
      DetectorQueryFacts.heard Detector.POSITIVE 90 ].


End ReadinessRelation.

(* ================================================================== *)
(** ** The phase engine: journey, insights, summary, pacing *)
(* ================================================================== *)

Module ReportFacts.
Import Engine EngineReports.
Open Scope string_scope.
Open Scope list_scope.






Definition times (e : string) (states : list EmotionState) : nat :=
  Tally.occurrences String.eqb e (map emotion states).








Definition felt (e : string) (second : Z) : EmotionState :=
  {| emotion := e; confidence := 0.8%float;
     timestamp := (second * 1000000)%Z; audio_features := [] |}.

Definition moved : R2C2State :=
  set_emotional_states
    [felt "defensive" 10; felt "defensive" 20; felt "neutral" 30]
    (initial_state Fixtures.no_feedback 0).


(** *** Insights *)



(** *** The summary *)










(** *** Pacing *)


End ReportFacts.

(* ================================================================== *)
(** ** The emotion processor: what reaches the engine and the front end *)
(* ================================================================== *)

Module ForwardingFacts.
Import Detector EmotionProcessor.
Open Scope Z_scope.






(** *** The classifier behind the gate *)






End ForwardingFacts.

(* ================================================================== *)
(** ** The R2C2 processor: a conversation as a whole *)
(* ================================================================== *)

Module ConversationFacts.
Import Engine R2C2Processor.
Open Scope string_scope.
Open Scope list_scope.
Open Scope Z_scope.

(** *** Prompt updates *)


Definition felt (e : string) (second : Z) : EmotionState :=
  {| emotion := e; confidence := 0.8%float;
     timestamp := second * 1000000; audio_features := [] |}.



(** *** Blank transcriptions *)



Definition at_second (second : Z) : Ticks :=
  let t := second * 1000000 in
  {| tick_created := t; tick_goal := t; tick_phase := t; tick_emotions := t;
     tick_duration := t; tick_ended := t; tick_start := t |}.



(** *** The history of a conversation *)











(** *** Prompts *)





(** Relationship since second 0; something is said at second 130. *)
Definition opening : R2C2State := initial_state Fixtures.no_feedback 0.

Definition moved :=
  _handle_user_transcription (init opening) opening "I see" (at_second 130).



End ConversationFacts.

(* ================================================================== *)
(** ** The emotion processor: frame skipping and the audio buffer *)
(* ================================================================== *)

(** [EmotionProcessor._process_audio_frame] and the first two
    statements of [_analyze_buffered_audio].  The samples are whatever
    the conversion of a frame yields; a frame whose conversion raises
    is [None] (the exception is caught and logged, after the frame was
    counted). *)
Module AudioBuffering.
Open Scope list_scope.
Open Scope Z_scope.

Section Samples.
Context {sample : Type}.

Record Buffers := {
  _frame_count : Z;
  _audio_buffer : list sample
}.

Definition init : Buffers := {| _frame_count := 0; _audio_buffer := [] |}.





End Samples.

Arguments Buffers : clear implicits.

End AudioBuffering.

Module BufferingFacts.
Import AudioBuffering.
Open Scope list_scope.
Open Scope Z_scope.

Section Samples.
Context {sample : Type}.








End Samples.



End BufferingFacts.
